(** * package.py: Debian Contents statistics

    A shallow embedding of [package.py] and the properties of its
    aggregation pipeline ([parse_contents_file]), of its reporter
    ([print_top_packages]) and of the way [main] wires the command line
    to the download.

    Python values are modelled as follows.
    - [str] is a sequence of Unicode code points, [list N]; whitespace is
      the set CPython's [str.strip] and [str.split] use.
    - [int] is [Z].
    - a [dict] is an insertion-ordered association list with unique keys
      (the iteration order of a Python dict is its insertion order, and
      [sorted] is stable, so the reporter depends on it).
    - exceptions are values of [exception]; a computation that may raise
      returns an [outcome].
    - [logging] and [print] write to a [world] that is threaded through.
    - [requests.get] and [gzip.open] are external: they are variables of
      the section that holds [main]. *)

From Stdlib Require Import String Ascii DecimalString DecimalZ.
From Stdlib Require Import List ZArith NArith Lia Bool Permutation Sorted.
Import ListNotations.

Local Open Scope string_scope.
Local Open Scope list_scope.

Local Open Scope Z_scope.

(** ** Strings *)

Module Str.

(** A Python [str]: its code points. *)
Definition str := list N.

(** The code points of an ASCII literal. *)
Definition py (s : string) : str := map N_of_ascii (list_ascii_of_string s).

Definition eqb (a b : str) : bool :=
  if list_eq_dec N.eq_dec a b then true else false.

(** [str.isspace] on one code point (CPython's [_PyUnicode_IsWhitespace]). *)
Definition isspace (c : N) : bool :=
  ((9 <=? c) && (c <=? 13) || (28 <=? c) && (c <=? 32)
   || (c =? 133) || (c =? 160) || (c =? 5760)
   || (8192 <=? c) && (c <=? 8202)
   || (c =? 8232) || (c =? 8233) || (c =? 8239) || (c =? 8287)
   || (c =? 12288))%N.

Definition comma : N := 44.
Definition space : N := 32.

Section While.
Context {A : Type} (p : A -> bool).

Fixpoint dropwhile (l : list A) : list A :=
  match l with
  | [] => []
  | x :: l' => if p x then dropwhile l' else l
  end.

Fixpoint takewhile (l : list A) : list A :=
  match l with
  | [] => []
  | x :: l' => if p x then x :: takewhile l' else []
  end.
End While.

(** [s.lstrip()], [s.rstrip()], [s.strip()]. *)
Definition lstrip (s : str) : str := dropwhile isspace s.
Definition rstrip (s : str) : str := rev (dropwhile isspace (rev s)).
Definition strip (s : str) : str := rstrip (lstrip s).

(** [s.rsplit(None, 1)], scanning from the right end as CPython does.
    [rsplit_from r] works on the reversed string once the trailing
    whitespace is skipped: take the last run of non-whitespace, skip the
    whitespace before it, and keep what is left (if anything) as the
    first part. *)
Definition rsplit_from (r : str) : list str :=
  let tok := rev (takewhile (fun c => negb (isspace c)) r) in
  match dropwhile isspace (dropwhile (fun c => negb (isspace c)) r) with
  | [] => [tok]
  | c :: rest => [rev (c :: rest); tok]
  end.

Definition rsplit_ws_1 (s : str) : list str :=
  match dropwhile isspace (rev s) with
  | [] => []
  | c :: r => rsplit_from (c :: r)
  end.

(** [s.split(sep)] for a one-character separator. *)
Fixpoint split (sep : N) (s : str) : list str :=
  match s with
  | [] => [[]]
  | c :: s' =>
      if (c =? sep)%N then [] :: split sep s'
      else match split sep s' with
           | h :: t => (c :: h) :: t
           | [] => [[c]]
           end
  end.

(** [sep.join(l)]. *)
Fixpoint join (sep : N) (l : list str) : str :=
  match l with
  | [] => []
  | [x] => x
  | x :: l' => x ++ sep :: join sep l'
  end.

(** [s.ljust(w)] with the space as fill, which is what the format
    specification [{s:w}] does to a string: pad on the right up to [w]
    code points, never cut. *)
Definition ljust (w : nat) (s : str) : str :=
  s ++ repeat space (w - length s).

(** [str(n)] for an [int]: its decimal digits, after a minus sign when it
    is negative. *)
Definition decimal (n : Z) : string := NilZero.string_of_int (Z.to_int n).
Definition of_int (n : Z) : str := py (decimal n).

End Str.

Import Str.

(** ** Dictionaries *)

Module Dict.

(** A Python [dict] from [str] to [int], in insertion order. *)
Definition dict := list (str * Z).

Definition empty : dict := [].

(** [d.get(k)]: the value stored under [k], if any. *)
Fixpoint get (d : dict) (k : str) : option Z :=
  match d with
  | [] => None
  | (k', v) :: d' => if eqb k' k then Some v else get d' k
  end.

(** [d[k] = v]: replace in place when the key exists, append otherwise. *)
Fixpoint setitem (d : dict) (k : str) (v : Z) : dict :=
  match d with
  | [] => [(k, v)]
  | (k', v') :: d' =>
      if eqb k' k then (k', v) :: d' else (k', v') :: setitem d' k v
  end.

(** [d[k]] on a [defaultdict(int)]: a missing key is first inserted with
    [int()], that is 0. The dictionary may change, so it is returned. *)
Definition defaultdict_getitem (d : dict) (k : str) : Z * dict :=
  match get d k with
  | Some v => (v, d)
  | None => (0, setitem d k 0)
  end.

(** [d[k] += 1] on a [defaultdict(int)]. *)
Definition iadd1 (d : dict) (k : str) : dict :=
  let '(v, d') := defaultdict_getitem d k in setitem d' k (v + 1).

(** The count a reader of the mapping sees for [k]: 0 when [k] is absent. *)
Definition count (d : dict) (k : str) : Z :=
  match get d k with
  | Some v => v
  | None => 0
  end.

Definition keys (d : dict) : list str := map fst d.

End Dict.

Import Dict.

(** ** Exceptions, outcomes and the outside world *)

(** What reading the decompressed text can raise. *)
Inductive read_error : Type :=
| BadGzipFile (msg : str)     (* gzip.BadGzipFile, a subclass of OSError *)
| OSError (msg : str)         (* any other OSError of the stream *)
| EOFError (msg : str)        (* a truncated gzip stream *)
| ZlibError (msg : str).      (* zlib.error, corrupt deflate data *)

Inductive exception : Type :=
| ReadError (e : read_error)
| DownloadError (msg : str)   (* the class defined in package.py *)
| SystemExit (code : Z)
| OtherError (class_name msg : str).  (* any class no handler names *)

(** [isinstance(e, OSError)]. *)
Definition is_OSError (e : exception) : bool :=
  match e with
  | ReadError (BadGzipFile _) | ReadError (OSError _) => true
  | _ => false
  end.

(** [str(e)]. *)
Definition exception_str (e : exception) : str :=
  match e with
  | ReadError (BadGzipFile m) | ReadError (OSError m)
  | ReadError (EOFError m) | ReadError (ZlibError m) => m
  | DownloadError m => m
  | SystemExit c => of_int c
  | OtherError _ m => m
  end.

Inductive outcome (A : Type) : Type :=
| Return (a : A)
| Raise (e : exception).
Arguments Return {A} a.
Arguments Raise {A} e.

Inductive level : Type := INFO | ERROR.

(** What the process has written: the lines printed on stdout and the
    records handed to [logging] (which go to stderr). *)
Record world : Type := mkWorld {
  stdout : list str;
  log : list (level * str)
}.

Definition world0 : world := mkWorld [] [].

(** Computations that write to the world and may raise. *)
Definition M (A : Type) : Type := world -> outcome A * world.

Definition ret {A} (a : A) : M A := fun w => (Return a, w).

Definition raise {A} (e : exception) : M A := fun w => (Raise e, w).

Definition bind {A B} (m : M A) (k : A -> M B) : M B :=
  fun w =>
    match m w with
    | (Return a, w') => k a w'
    | (Raise e, w') => (Raise e, w')
    end.

(** [try: m  except <handles> as e: h e]. *)
Definition try_except {A} (m : M A) (handles : exception -> bool)
    (h : exception -> M A) : M A :=
  fun w =>
    match m w with
    | (Raise e, w') => if handles e then h e w' else (Raise e, w')
    | r => r
    end.

Notation "x <- m ;; k" := (bind m (fun x => k))
  (at level 61, m at next level, right associativity).
Notation "m ;;; k" := (bind m (fun _ => k))
  (at level 61, right associativity).

Definition logging_info (msg : str) : M unit :=
  fun w => (Return tt, mkWorld (stdout w) (log w ++ [(INFO, msg)])).

Definition logging_error (msg : str) : M unit :=
  fun w => (Return tt, mkWorld (stdout w) (log w ++ [(ERROR, msg)])).

Definition print (line : str) : M unit :=
  fun w => (Return tt, mkWorld (stdout w ++ [line]) (log w)).

(** [sys.exit(code)]. *)
Definition sys_exit {A} (code : Z) : M A := raise (SystemExit code).

(** The exit status of the interpreter for the outcome of the script:
    0 when it runs to its end, the code of a [SystemExit], and 1 for any
    other exception that nobody caught. *)
Definition exit_status {A} (r : outcome A) : Z :=
  match r with
  | Return _ => 0
  | Raise (SystemExit c) => c
  | Raise _ => 1
  end.

(** ** The program *)

(** Module constant [DEBIAN_MIRROR]. *)
Definition DEBIAN_MIRROR : str :=
  py "http://ftp.uk.debian.org/debian/dists/stable/main/".

(** What the user typed, once [argparse] has accepted it: the positional
    [arch] and the options that were given. (A command line that
    [argparse] refuses, or [--help], ends the script inside
    [parser.parse_args()], before anything below runs.) *)
Record command_line : Type := mkCommandLine {
  given_arch : str;
  given_top : option Z;
  given_mirror : option str
}.

(** The [argparse.Namespace] that [parse_arguments] returns. *)
Record Namespace : Type := mkNamespace {
  arch : str;
  top : Z;
  mirror : option str
}.

(** [os.environ] *)
Definition environment : Type := str -> option str.

(** [parse_arguments]: [--top] defaults to 10 and [--mirror] to
    [os.getenv("DEBIAN_MIRROR")], which is [None] when the variable is
    not set. *)
Definition parse_arguments (environ : environment) (argv : command_line)
    : Namespace :=
  {| arch := given_arch argv;
     top := match given_top argv with Some n => n | None => 10 end;
     mirror := match given_mirror argv with
               | Some m => Some m
               | None => environ (py "DEBIAN_MIRROR")
               end |}.

(** What the body of the [try] of [download_contents_file] meets:
    [requests.get(url, stream=True, timeout=10)] and the read of
    [response.content] give a response, or raise a [RequestException]
    (the transport failed), or raise an exception of another class (for
    instance urllib3's [LocationParseError], a [ValueError], for a host
    name that cannot be parsed). *)
Inductive http_result : Type :=
| Response (status_code : Z) (reason : str) (content : list Byte.byte)
| RequestException (msg : str)
| OtherFailure (class_name msg : str).

(** The message of the [HTTPError] that [response.raise_for_status()]
    raises, or [None] when the status is no error. The message names the
    URL of the request; [requests] prints the URL of the response, which
    differs from it after a redirect or a percent-encoding. *)
Definition raise_for_status (status_code : Z) (reason url : str) : option str :=
  if (400 <=? status_code) && (status_code <? 500) then
    Some (of_int status_code ++ py " Client Error: " ++ reason
          ++ py " for url: " ++ url)
  else if (500 <=? status_code) && (status_code <? 600) then
    Some (of_int status_code ++ py " Server Error: " ++ reason
          ++ py " for url: " ++ url)
  else None.

(** The text file object of [gzip.open(f, 'rt', encoding='utf-8',
    errors='ignore')], seen by the [for line in f] loop: the lines it
    yields, until the end of the file or until a read raises. *)
Inductive text_lines : Type :=
| Eof
| Line (line : str) (rest : text_lines)
| ReadFails (e : read_error).

(** The URL [download_contents_file] fetches. *)
Definition contents_url (arch mirror_base : str) : str :=
  mirror_base ++ py "Contents-" ++ arch ++ py ".gz".

(** One iteration of the loop of [parse_contents_file] (lines 99 to 104). *)
Definition process_line (package_file_count : dict) (line : str) : dict :=
  let parts := rsplit_ws_1 (strip line) in
  if negb (Nat.eqb (length parts) 2) then package_file_count
  else
    let packages := nth 1 parts [] in
    fold_left iadd1 (split comma packages) package_file_count.

(** The loop [for line in f] of [parse_contents_file]. *)
Fixpoint read_loop (f : text_lines) (package_file_count : dict)
    : outcome dict :=
  match f with
  | Eof => Return package_file_count
  | Line line rest => read_loop rest (process_line package_file_count line)
  | ReadFails e => Raise (ReadError e)
  end.

(** [sorted(l, key=itemgetter(1), reverse=True)]: stable, descending. *)
Fixpoint insert_desc (x : str * Z) (l : list (str * Z)) : list (str * Z) :=
  match l with
  | [] => [x]
  | y :: l' => if snd x <? snd y then y :: insert_desc x l' else x :: l
  end.

Definition sorted_desc (l : list (str * Z)) : list (str * Z) :=
  fold_right insert_desc [] l.

(** The slice [l[:n]]. *)
Definition slice_to {A} (l : list A) (n : Z) : list A :=
  let stop := if n <? 0 then Z.max 0 (Z.of_nat (length l) + n) else n in
  firstn (Z.to_nat stop) l.

(** The line [f"{pkg:30} {count}"]. *)
Definition format_line (pkg : str) (count : Z) : str :=
  ljust 30 pkg ++ space :: of_int count.

(** The lines [print_top_packages] prints, in order. *)
Definition top_lines (package_file_count : dict) (top_n : Z) : list str :=
  map (fun '(pkg, count) => format_line pkg count)
      (slice_to (sorted_desc package_file_count) top_n).

Fixpoint print_all (lines : list str) : M unit :=
  match lines with
  | [] => ret tt
  | l :: ls => print l ;;; print_all ls
  end.

(** [print_top_packages]. *)
Definition print_top_packages (package_file_count : dict) (top_n : Z)
    : M unit :=
  logging_info (10%N :: py "Top " ++ of_int top_n
                ++ py " packages by number of files:" ++ [10%N]) ;;;
  print_all (top_lines package_file_count top_n).

Section Program.

(** The two external collaborators. *)
Variable requests_get : str -> http_result.
Variable gzip_open_rt : list Byte.byte -> text_lines.

(** [download_contents_file]. *)
Definition download_contents_file (arch mirror_base : str)
    : M (list Byte.byte) :=
  let url := contents_url arch mirror_base in
  logging_info (py "Downloading: " ++ url) ;;;
  match requests_get url with
  | Response status_code reason content =>
      match raise_for_status status_code reason url with
      | Some e => raise (DownloadError (py "HTTP error: " ++ e))
      | None => ret content
      end
  | RequestException e => raise (DownloadError (py "Network error: " ++ e))
  | OtherFailure class_name e => raise (OtherError class_name e)
  end.

(** [parse_contents_file]. *)
Definition parse_contents_file (gzipped_file : list Byte.byte) : M dict :=
  try_except
    (fun w => (read_loop (gzip_open_rt gzipped_file) Dict.empty, w))
    is_OSError
    (fun e =>
       logging_error (py "Error reading gzip file: " ++ exception_str e) ;;;
       sys_exit 1).

(** [main]. *)
Definition main (environ : environment) (argv : command_line) : M unit :=
  let args := parse_arguments environ argv in
  let arch := arch args in
  let top_n := top args in
  gzipped_file <-
    try_except
      (download_contents_file arch DEBIAN_MIRROR)
      (fun e => match e with DownloadError _ => true | _ => false end)
      (fun e => logging_error (exception_str e) ;;; sys_exit 1) ;;
  package_file_count <- parse_contents_file gzipped_file ;;
  print_top_packages package_file_count top_n.

(** Running the script: the exit status and what was written. *)
Definition run (environ : environment) (argv : command_line) : Z * world :=
  let '(r, w) := main environ argv world0 in (exit_status r, w).

End Program.

(** The mirror base as the specification describes it: the flag, else the
    environment variable, else the built-in base. *)
Definition spec_mirror_base (environ : environment) (argv : command_line)
    : str :=
  match given_mirror argv with
  | Some m => m
  | None =>
      match environ (py "DEBIAN_MIRROR") with
      | Some m => m
      | None => DEBIAN_MIRROR
      end
  end.

(** ** Vocabulary of the statements *)

Definition is_space (c : N) : Prop := isspace c = true.
Definition non_space (c : N) : Prop := isspace c = false.

(** A string whose last code point is not whitespace (so it is not empty). *)
Definition ends_non_space (s : str) : Prop :=
  exists s' c, s = s' ++ [c] /\ non_space c.

Definition str_eq_dec : forall a b : str, {a = b} + {a <> b} :=
  list_eq_dec N.eq_dec.

(** How many times [q] is listed in [ps]. *)
Definition occurrences (q : str) (ps : list str) : nat :=
  count_occ str_eq_dec ps q.

(** A package name as the Contents format has it: no whitespace and no
    comma inside. *)
Definition package_name (p : str) : Prop :=
  Forall (fun c => non_space c /\ c <> comma) p.

(** The packages one line makes [parse_contents_file] count, in order:
    the names the inner loop of [process_line] runs over. *)
Definition line_packages (line : str) : list str :=
  let parts := rsplit_ws_1 (strip line) in
  if negb (Nat.eqb (length parts) 2) then []
  else split comma (nth 1 parts []).

(** A file object that yields the given lines and then ends. *)
Fixpoint lines_then_eof (lines : list str) : text_lines :=
  match lines with
  | [] => Eof
  | l :: ls => Line l (lines_then_eof ls)
  end.

(** A file object that yields the given lines and then raises. *)
Fixpoint lines_then_raise (lines : list str) (e : read_error) : text_lines :=
  match lines with
  | [] => ReadFails e
  | l :: ls => Line l (lines_then_raise ls e)
  end.

(** Every key of the mapping has a count of at least 1. *)
Definition positive_counts (d : dict) : Prop :=
  Forall (fun kv => 1 <= snd kv) d.

(** Descending by count. *)
Definition descending (l : list (str * Z)) : Prop :=
  StronglySorted (fun a b => snd b <= snd a) l.

(** The report line as the specification words it: the name padded or
    truncated to exactly 30 columns, a space, the count. *)
Definition spec_format_line (pkg : str) (count : Z) : str :=
  firstn 30 (ljust 30 pkg) ++ space :: of_int count.

(** A well-formed line of a Contents file: a path, whitespace, the
    comma-separated package list, and what ends the line. *)
Definition well_formed_line (path ws : str) (ps : list str) (trail : str)
    : str :=
  path ++ ws ++ join comma ps ++ trail.

(** Scenarios for the external collaborators: a server that answers every
    request with [200 OK] and the given body, an empty environment, and a
    decompressor whose reads yield the given lines and then raise. *)
Definition server_sends (content : list Byte.byte) : str -> http_result :=
  fun _ => Response 200 (py "OK") content.

Definition no_environ : environment := fun _ => None.


(** The sum of the counts of a mapping. *)
Definition total (d : dict) : Z :=
  fold_right (fun kv acc => snd kv + acc) 0 d.

(** [k in seen]. *)
Definition mem (k : str) (seen : list str) : bool :=
  existsb (fun x => eqb x k) seen.

(** The names of [ps] in the order in which they first appear, without
    those of [seen]. *)
Fixpoint first_seen (seen : list str) (ps : list str) : list str :=
  match ps with
  | [] => []
  | p :: ps' =>
      if mem p seen then first_seen seen ps'
      else p :: first_seen (seen ++ [p]) ps'
  end.

(** The entries of a list of pairs that have the count [c], in order. *)
Definition with_count (c : Z) (l : list (str * Z)) : list (str * Z) :=
  filter (fun kv => snd kv =? c) l.

(** The number of commas of a string. *)
Definition commas (s : str) : nat := count_occ N.eq_dec s comma.

(** Two more scenarios: a server that answers every request with the given
    status and an empty body, and a decompressor whose reads yield the
    given lines up to the end of the file. *)
Definition server_status (status_code : Z) (reason : str)
    : str -> http_result :=
  fun _ => Response status_code reason [].

Definition reader_yielding (lines : list str)
    : list Byte.byte -> text_lines :=
  fun _ => lines_then_eof lines.


(** * Properties *)

(** ** Strings: scanning and splitting *)

Example rsplit_path_with_blanks :
  rsplit_ws_1 (strip (py "usr/share/my file.txt   utils/foo,admin/bar" ++ [10%N]))
  = [py "usr/share/my file.txt"; py "utils/foo,admin/bar"].
Proof. reflexivity. Qed.

Example rsplit_lone_token : rsplit_ws_1 (strip (py "  token ")) = [py "token"].
Proof. reflexivity. Qed.

Example rsplit_blank_line : rsplit_ws_1 (strip (py "   " ++ [10%N])) = [].
Proof. reflexivity. Qed.

Example split_keeps_empty_names :
  split comma (py "a,,b") = [py "a"; []; py "b"] /\ split comma [] = [[]].
Proof. split; reflexivity. Qed.

Example of_int_digits :
  of_int 500 = py "500" /\ of_int (-7) = py "-7" /\ of_int 0 = py "0".
Proof. repeat split; reflexivity. Qed.

Example read_three_lines :
  read_loop
    (lines_then_eof [py "FILE LOCATION"; py "bin/ls coreutils";
                     py "bin/cp  coreutils,busybox"; []])
    Dict.empty
  = Return [(py "LOCATION", 1); (py "coreutils", 2); (py "busybox", 1)].
Proof. reflexivity. Qed.

Lemma eqb_spec (a b : str) : reflect (a = b) (eqb a b).
Proof.
  unfold eqb. destruct (list_eq_dec N.eq_dec a b); constructor; assumption.
Qed.

Lemma eqb_refl (a : str) : eqb a a = true.
Proof. destruct (eqb_spec a a); congruence. Qed.

Lemma eqb_neq (a b : str) : a <> b -> eqb a b = false.
Proof. destruct (eqb_spec a b); congruence. Qed.

Section WhileFacts.
Context {A : Type} (p : A -> bool).

Lemma takewhile_dropwhile (l : list A) :
  takewhile p l ++ dropwhile p l = l.
Proof.
  induction l as [|x l IH]; simpl; [reflexivity|].
  destruct (p x); simpl; [f_equal; exact IH | reflexivity].
Qed.

Lemma takewhile_all (l : list A) : Forall (fun x => p x = true) (takewhile p l).
Proof.
  induction l as [|x l IH]; simpl; [constructor|].
  destruct (p x) eqn:E; [constructor; assumption | constructor].
Qed.

Lemma dropwhile_head (l : list A) x r : dropwhile p l = x :: r -> p x = false.
Proof.
  induction l as [|y l IH]; simpl; [discriminate|].
  destruct (p y) eqn:E; [exact IH | intros H; injection H as -> _; exact E].
Qed.

Lemma dropwhile_skip (l r : list A) :
  Forall (fun x => p x = true) l -> dropwhile p (l ++ r) = dropwhile p r.
Proof.
  induction 1 as [|x l Hx _ IH]; simpl; [reflexivity|].
  rewrite Hx. exact IH.
Qed.

Lemma dropwhile_stop (x : A) (r : list A) :
  p x = false -> dropwhile p (x :: r) = x :: r.
Proof. intros H; simpl; rewrite H; reflexivity. Qed.

Lemma takewhile_stop (l : list A) (x : A) (r : list A) :
  Forall (fun y => p y = true) l -> p x = false ->
  takewhile p (l ++ x :: r) = l.
Proof.
  induction 1 as [|y l Hy _ IH]; simpl; intros Hx.
  - rewrite Hx; reflexivity.
  - rewrite Hy, (IH Hx); reflexivity.
Qed.

Lemma takewhile_whole (l : list A) :
  Forall (fun y => p y = true) l -> takewhile p l = l.
Proof.
  induction 1 as [|y l Hy _ IH]; simpl; [reflexivity|].
  rewrite Hy, IH; reflexivity.
Qed.

Lemma dropwhile_whole (l : list A) :
  Forall (fun y => p y = true) l -> dropwhile p l = [].
Proof.
  intros H. rewrite <- (app_nil_r l), (dropwhile_skip _ _ H). reflexivity.
Qed.

Lemma dropwhile_nil_all (l : list A) :
  dropwhile p l = [] -> Forall (fun y => p y = true) l.
Proof.
  induction l as [|y l IH]; simpl; [constructor|].
  destruct (p y) eqn:E; [|discriminate].
  intros H; constructor; auto.
Qed.
End WhileFacts.

Lemma non_space_negb (l : list N) :
  Forall non_space l -> Forall (fun c => negb (isspace c) = true) l.
Proof.
  apply Forall_impl. unfold non_space. intros c ->. reflexivity.
Qed.

Lemma negb_non_space (l : list N) :
  Forall (fun c => negb (isspace c) = true) l -> Forall non_space l.
Proof.
  apply Forall_impl. unfold non_space. intros c H.
  destruct (isspace c); [discriminate | reflexivity].
Qed.

Section WhileRuns.
Context {A : Type} (p : A -> bool).

(** A non-empty run on which [p] fails stops the scan. *)
Lemma dropwhile_keep (l r : list A) :
  l <> [] -> Forall (fun x => p x = false) l ->
  dropwhile p (l ++ r) = l ++ r.
Proof.
  intros Hl Fl. destruct l as [|x l]; [contradiction|].
  inversion Fl; subst. apply dropwhile_stop. assumption.
Qed.

Lemma dropwhile_run (l r1 r2 : list A) :
  Forall (fun x => p x = true) l ->
  r1 <> [] -> Forall (fun x => p x = false) r1 ->
  dropwhile p (l ++ r1 ++ r2) = r1 ++ r2.
Proof.
  intros Fl Hr Fr. rewrite (dropwhile_skip p _ _ Fl).
  apply dropwhile_keep; assumption.
Qed.

Lemma takewhile_run (l r1 r2 : list A) :
  Forall (fun x => p x = true) l ->
  r1 <> [] -> Forall (fun x => p x = false) r1 ->
  takewhile p (l ++ r1 ++ r2) = l.
Proof.
  intros Fl Hr Fr. destruct r1 as [|x r1]; [contradiction|].
  inversion Fr; subst. apply takewhile_stop; assumption.
Qed.
End WhileRuns.

Lemma rev_not_nil {A} (l : list A) : l <> [] -> rev l <> [].
Proof.
  intros H E. apply H. rewrite <- (rev_involutive l), E. reflexivity.
Qed.

Lemma is_space_not_negb (l : list N) :
  Forall is_space l -> Forall (fun c => negb (isspace c) = false) l.
Proof. apply Forall_impl. unfold is_space. intros c ->. reflexivity. Qed.

Lemma rsplit_ws_1_from (s r : str) :
  dropwhile isspace (rev s) = r -> r <> [] -> rsplit_ws_1 s = rsplit_from r.
Proof.
  intros E Hr. unfold rsplit_ws_1. rewrite E.
  destruct r; [contradiction | reflexivity].
Qed.

(** The shape [rsplit_ws_1] gives to a string that ends in a token preceded
    by whitespace and by something that ends in a non-blank. *)
Lemma rsplit_two (path ws owners : str) :
  ends_non_space path ->
  ws <> [] -> Forall is_space ws ->
  owners <> [] -> Forall non_space owners ->
  rsplit_ws_1 (path ++ ws ++ owners) = [path; owners].
Proof.
  intros (p' & c & -> & Hc) Hws Fws Hown Fown.
  pose proof (rev_not_nil _ Hws) as Hrw.
  pose proof (rev_not_nil _ Hown) as Hro.
  pose proof (Forall_rev Fws) as Frw.
  pose proof (Forall_rev Fown) as Fro.
  assert (E : rev ((p' ++ [c]) ++ ws ++ owners)
              = rev owners ++ rev ws ++ c :: rev p').
  { rewrite !rev_app_distr, <- app_assoc. reflexivity. }
  rewrite (rsplit_ws_1_from _ (rev owners ++ rev ws ++ c :: rev p')).
  - unfold rsplit_from.
    rewrite (takewhile_run _ _ _ _ (non_space_negb _ Fro) Hrw
               (is_space_not_negb _ Frw)).
    rewrite (dropwhile_run _ _ _ _ (non_space_negb _ Fro) Hrw
               (is_space_not_negb _ Frw)).
    rewrite (dropwhile_skip isspace _ _ Frw).
    rewrite (dropwhile_stop isspace c _ Hc).
    rewrite rev_involutive.
    change (c :: rev p') with (rev [c] ++ rev p').
    rewrite <- rev_app_distr, rev_involutive. reflexivity.
  - rewrite E. apply dropwhile_keep; assumption.
  - intros H. apply app_eq_nil in H. destruct H as [H _]. contradiction.
Qed.

(** ** Stripping *)

Lemma lstrip_app (pre rest : str) :
  Exists non_space pre -> lstrip (pre ++ rest) = lstrip pre ++ rest.
Proof.
  unfold lstrip. induction pre as [|x pre IH]; intros H.
  - inversion H.
  - simpl. destruct (isspace x) eqn:Ex; [|reflexivity].
    apply IH. inversion H as [? ? Hx | ? ? Ht]; subst; [|exact Ht].
    unfold non_space in Hx. congruence.
Qed.

Lemma lstrip_exists (pre : str) :
  Exists non_space pre -> Exists non_space (lstrip pre).
Proof.
  unfold lstrip. induction pre as [|x pre IH]; intros H; [inversion H|].
  simpl. destruct (isspace x) eqn:Ex; [|exact H].
  apply IH. inversion H as [? ? Hx | ? ? Ht]; subst; [|exact Ht].
  unfold non_space in Hx. congruence.
Qed.

Lemma rstrip_trailing (s trail : str) :
  Forall is_space trail -> rstrip (s ++ trail) = rstrip s.
Proof.
  intros F. unfold rstrip. rewrite rev_app_distr.
  rewrite (dropwhile_skip isspace _ _ (Forall_rev F)). reflexivity.
Qed.

Lemma rstrip_token (s tok : str) :
  tok <> [] -> Forall non_space tok -> rstrip (s ++ tok) = s ++ tok.
Proof.
  intros Ht F. unfold rstrip. rewrite rev_app_distr.
  rewrite (dropwhile_keep isspace _ _ (rev_not_nil _ Ht) (Forall_rev F)).
  rewrite <- rev_app_distr. apply rev_involutive.
Qed.

(** A string is its right-stripped part followed by blanks. *)
Lemma rstrip_decompose (s : str) :
  exists t, s = rstrip s ++ t /\ Forall is_space t.
Proof.
  exists (rev (takewhile isspace (rev s))). split.
  - unfold rstrip. rewrite <- rev_app_distr, takewhile_dropwhile.
    symmetry. apply rev_involutive.
  - apply Forall_rev. apply takewhile_all.
Qed.

Lemma rstrip_ends_non_space (s : str) :
  Exists non_space s -> ends_non_space (rstrip s).
Proof.
  intros H. unfold rstrip.
  destruct (dropwhile isspace (rev s)) as [|c r] eqn:E.
  - exfalso. apply dropwhile_nil_all in E.
    apply Forall_rev in E. rewrite rev_involutive in E.
    apply Exists_exists in H. destruct H as (x & Hin & Hx).
    rewrite Forall_forall in E. specialize (E x Hin).
    unfold non_space in Hx. congruence.
  - exists (rev r), c. split; [reflexivity|].
    exact (dropwhile_head isspace _ _ _ E).
Qed.

(** What comes out of [rstrip] does not end in a blank. *)
Lemma rstrip_no_trailing (s l t : str) :
  rstrip s = l ++ t -> Forall is_space t -> t = [].
Proof.
  unfold rstrip. intros E F.
  apply (f_equal (@rev N)) in E. rewrite rev_involutive, rev_app_distr in E.
  destruct (rev t) as [|c r] eqn:Et.
  - apply (f_equal (@rev N)) in Et. rewrite rev_involutive in Et. exact Et.
  - exfalso. simpl in E. apply dropwhile_head in E.
    assert (Hc : In c (rev t)) by (rewrite Et; left; reflexivity).
    apply in_rev in Hc. rewrite Forall_forall in F. specialize (F c Hc).
    unfold is_space in F. congruence.
Qed.

(** The two parts of a line made of something with a non-blank in it,
    whitespace, a token, and trailing whitespace (the newline). *)
Lemma parts_of_line (pre ws owners trail : str) :
  Exists non_space pre ->
  ws <> [] -> Forall is_space ws ->
  owners <> [] -> Forall non_space owners ->
  Forall is_space trail ->
  rsplit_ws_1 (strip (pre ++ ws ++ owners ++ trail)) = [strip pre; owners].
Proof.
  intros Hpre Hws Fws Hown Fown Ftrail.
  unfold strip. rewrite (lstrip_app _ _ Hpre).
  replace (lstrip pre ++ ws ++ owners ++ trail)
    with (((lstrip pre ++ ws) ++ owners) ++ trail)
    by (rewrite <- !app_assoc; reflexivity).
  rewrite (rstrip_trailing _ _ Ftrail), (rstrip_token _ _ Hown Fown).
  destruct (rstrip_decompose (lstrip pre)) as (t & Et & Ft).
  rewrite Et at 1.
  replace (((rstrip (lstrip pre) ++ t) ++ ws) ++ owners)
    with (rstrip (lstrip pre) ++ (t ++ ws) ++ owners)
    by (rewrite <- !app_assoc; reflexivity).
  apply rsplit_two; try assumption.
  - apply rstrip_ends_non_space, lstrip_exists, Hpre.
  - intros H. apply app_eq_nil in H. destruct H as [_ H]. contradiction.
  - apply Forall_app; split; assumption.
Qed.

(** Every string falls in one of three cases for [rsplit_ws_1]: blank,
    one token, or something that ends in a non-blank, a whitespace run and
    a token. Trailing whitespace is skipped in each case. *)
Lemma rsplit_cases (s : str) :
  (Forall is_space s /\ rsplit_ws_1 s = [])
  \/ (exists lead tok trail,
        s = lead ++ tok ++ trail /\ Forall is_space lead /\
        tok <> [] /\ Forall non_space tok /\ Forall is_space trail /\
        rsplit_ws_1 s = [tok])
  \/ (exists path ws tok trail,
        s = path ++ ws ++ tok ++ trail /\ ends_non_space path /\
        ws <> [] /\ Forall is_space ws /\
        tok <> [] /\ Forall non_space tok /\ Forall is_space trail /\
        rsplit_ws_1 s = [path; tok]).
Proof.
  pose (nsp := fun c => negb (isspace c)).
  pose proof (takewhile_dropwhile isspace (rev s)) as E0.
  pose proof (takewhile_all isspace (rev s)) as F0.
  destruct (dropwhile isspace (rev s)) as [|c0 r0] eqn:ER.
  { left. split.
    - apply dropwhile_nil_all in ER. apply Forall_rev in ER.
      rewrite rev_involutive in ER. exact ER.
    - unfold rsplit_ws_1. rewrite ER. reflexivity. }
  right.
  pose proof (dropwhile_head isspace _ _ _ ER) as Hc0.
  assert (Hsplit : rsplit_ws_1 s = rsplit_from (c0 :: r0)).
  { apply rsplit_ws_1_from; [exact ER | discriminate]. }
  pose proof (takewhile_dropwhile nsp (c0 :: r0)) as E1.
  pose proof (takewhile_all nsp (c0 :: r0)) as F1.
  assert (K1 : takewhile nsp (c0 :: r0) <> []).
  { simpl. unfold nsp at 1. rewrite Hc0. discriminate. }
  assert (Es : s = rev (dropwhile nsp (c0 :: r0))
                   ++ rev (takewhile nsp (c0 :: r0))
                   ++ rev (takewhile isspace (rev s))).
  { assert (Er : rev s = takewhile isspace (rev s)
                        ++ takewhile nsp (c0 :: r0) ++ dropwhile nsp (c0 :: r0)).
    { rewrite E1. symmetry. exact E0. }
    apply (f_equal (@rev N)) in Er. rewrite rev_involutive in Er.
    etransitivity; [exact Er|].
    rewrite !rev_app_distr, <- app_assoc. reflexivity. }
  pose proof (takewhile_dropwhile isspace (dropwhile nsp (c0 :: r0))) as E2.
  pose proof (takewhile_all isspace (dropwhile nsp (c0 :: r0))) as F2.
  unfold rsplit_from in Hsplit. fold nsp in Hsplit.
  destruct (dropwhile isspace (dropwhile nsp (c0 :: r0))) as [|c2 r2] eqn:ER2.
  - left.
    exists (rev (dropwhile nsp (c0 :: r0))), (rev (takewhile nsp (c0 :: r0))),
      (rev (takewhile isspace (rev s))).
    repeat split.
    + exact Es.
    + apply Forall_rev. rewrite <- E2, app_nil_r. exact F2.
    + apply rev_not_nil, K1.
    + apply Forall_rev, negb_non_space, F1.
    + apply Forall_rev, F0.
    + exact Hsplit.
  - right.
    pose proof (dropwhile_head isspace _ _ _ ER2) as Hc2.
    exists (rev (c2 :: r2)),
      (rev (takewhile isspace (dropwhile nsp (c0 :: r0)))),
      (rev (takewhile nsp (c0 :: r0))), (rev (takewhile isspace (rev s))).
    repeat split.
    + rewrite Es at 1. rewrite <- E2 at 1.
      rewrite rev_app_distr, <- !app_assoc. reflexivity.
    + exists (rev r2), c2. split; [reflexivity | exact Hc2].
    + apply rev_not_nil.
      destruct (dropwhile nsp (c0 :: r0)) as [|c1 r1] eqn:ER1;
        [discriminate ER2|].
      pose proof (dropwhile_head nsp _ _ _ ER1) as Hc1. unfold nsp in Hc1.
      simpl. destruct (isspace c1); [discriminate | discriminate Hc1].
    + apply Forall_rev, F2.
    + apply rev_not_nil, K1.
    + apply Forall_rev, negb_non_space, F1.
    + apply Forall_rev, F0.
    + exact Hsplit.
Qed.

(** ** Splitting and joining on the comma *)

Lemma split_no_sep (sep : N) (x : str) :
  Forall (fun c => c <> sep) x -> split sep x = [x].
Proof.
  induction 1 as [|c x Hc _ IH]; simpl; [reflexivity|].
  apply N.eqb_neq in Hc. rewrite Hc, IH. reflexivity.
Qed.

Lemma split_app_sep (sep : N) (x rest : str) :
  Forall (fun c => c <> sep) x ->
  split sep (x ++ sep :: rest) = x :: split sep rest.
Proof.
  induction 1 as [|c x Hc _ IH]; simpl.
  - rewrite N.eqb_refl. reflexivity.
  - apply N.eqb_neq in Hc. rewrite Hc, IH. reflexivity.
Qed.

Lemma split_join (sep : N) (ps : list str) :
  ps <> [] -> Forall (Forall (fun c => c <> sep)) ps ->
  split sep (join sep ps) = ps.
Proof.
  intros Hne F. induction F as [|x ps Hx F IH]; [contradiction|].
  destruct ps as [|y ps].
  - simpl. apply split_no_sep, Hx.
  - change (join sep (x :: y :: ps)) with (x ++ sep :: join sep (y :: ps)).
    rewrite (split_app_sep _ _ _ Hx), IH; [reflexivity | discriminate].
Qed.

Lemma join_non_space (ps : list str) :
  Forall (Forall non_space) ps -> Forall non_space (join comma ps).
Proof.
  induction 1 as [|x ps Hx F IH]; [constructor|].
  destruct ps as [|y ps]; [exact Hx|].
  change (join comma (x :: y :: ps)) with (x ++ comma :: join comma (y :: ps)).
  apply Forall_app; split; [exact Hx|].
  constructor; [reflexivity | exact IH].
Qed.

Lemma package_names_no_comma (ps : list str) :
  Forall package_name ps -> Forall (Forall (fun c => c <> comma)) ps.
Proof.
  apply Forall_impl. intros p. apply Forall_impl. intros c [_ H]. exact H.
Qed.

Lemma package_names_non_space (ps : list str) :
  Forall package_name ps -> Forall (Forall non_space) ps.
Proof.
  apply Forall_impl. intros p. apply Forall_impl. intros c [H _]. exact H.
Qed.

(** ** The dictionary *)

Lemma get_setitem_same (d : dict) (k : str) (v : Z) :
  get (setitem d k v) k = Some v.
Proof.
  induction d as [|[k' v'] d IH]; simpl.
  - rewrite eqb_refl. reflexivity.
  - destruct (eqb k' k) eqn:E; simpl; rewrite E; [reflexivity | exact IH].
Qed.

Lemma get_setitem_other (d : dict) (k q : str) (v : Z) :
  k <> q -> get (setitem d k v) q = get d q.
Proof.
  intros Hne. induction d as [|[k' v'] d IH]; simpl.
  - rewrite (eqb_neq _ _ Hne). reflexivity.
  - destruct (eqb_spec k' k) as [->|Hk]; simpl.
    + rewrite (eqb_neq _ _ Hne). reflexivity.
    + rewrite IH. reflexivity.
Qed.

Lemma get_iadd1_same (d : dict) (k : str) :
  get (iadd1 d k) k = Some (count d k + 1).
Proof.
  unfold iadd1, defaultdict_getitem, count.
  destruct (get d k); apply get_setitem_same.
Qed.

Lemma get_iadd1_other (d : dict) (k q : str) :
  k <> q -> get (iadd1 d k) q = get d q.
Proof.
  intros Hne. unfold iadd1, defaultdict_getitem.
  destruct (get d k); rewrite !get_setitem_other by exact Hne; reflexivity.
Qed.

Lemma count_iadd1 (d : dict) (k q : str) :
  count (iadd1 d k) q = count d q + (if str_eq_dec k q then 1 else 0).
Proof.
  destruct (str_eq_dec k q) as [->|Hne].
  - unfold count at 1. rewrite get_iadd1_same. reflexivity.
  - unfold count. rewrite (get_iadd1_other _ _ _ Hne). lia.
Qed.

(** After the increments for [ps], the count of [q] has risen by the number
    of times [q] is listed in [ps]. *)
Lemma count_fold_iadd1 (ps : list str) (d : dict) (q : str) :
  count (fold_left iadd1 ps d) q = count d q + Z.of_nat (occurrences q ps).
Proof.
  unfold occurrences. revert d.
  induction ps as [|p ps IH]; intros d; simpl; [lia|].
  rewrite IH, count_iadd1. destruct (str_eq_dec p q); lia.
Qed.

Lemma get_fold_iadd1_absent (ps : list str) (d : dict) (q : str) :
  ~ In q ps -> get (fold_left iadd1 ps d) q = get d q.
Proof.
  revert d. induction ps as [|p ps IH]; intros d Hq; simpl; [reflexivity|].
  rewrite IH by (intros H; apply Hq; right; exact H).
  apply get_iadd1_other. intros ->. apply Hq. left. reflexivity.
Qed.

Lemma get_iadd1_present (d : dict) (k q : str) :
  get d q <> None -> get (iadd1 d k) q <> None.
Proof.
  intros H. destruct (str_eq_dec k q) as [->|Hne].
  - rewrite get_iadd1_same. discriminate.
  - rewrite (get_iadd1_other _ _ _ Hne). exact H.
Qed.

Lemma get_fold_iadd1_present (ps : list str) (d : dict) (q : str) :
  get d q <> None -> get (fold_left iadd1 ps d) q <> None.
Proof.
  revert d. induction ps as [|p ps IH]; intros d H; simpl; [exact H|].
  apply IH, get_iadd1_present, H.
Qed.

Lemma get_fold_iadd1_listed (ps : list str) (d : dict) (q : str) :
  In q ps ->
  get (fold_left iadd1 ps d) q
  = Some (count d q + Z.of_nat (occurrences q ps)).
Proof.
  intros Hin.
  assert (P : get (fold_left iadd1 ps d) q <> None).
  { revert d. induction ps as [|p ps IH]; intros d; [contradiction|].
    simpl. destruct (str_eq_dec p q) as [->|Hne].
    - apply get_fold_iadd1_present. rewrite get_iadd1_same. discriminate.
    - apply IH. destruct Hin as [E|Hin]; [contradiction | exact Hin]. }
  pose proof (count_fold_iadd1 ps d q) as C. unfold count at 1 in C.
  destruct (get (fold_left iadd1 ps d) q); [rewrite C; reflexivity|].
  contradiction.
Qed.

(** ** One line *)

Lemma process_line_packages (d : dict) (line : str) :
  process_line d line = fold_left iadd1 (line_packages line) d.
Proof.
  unfold process_line, line_packages.
  destruct (negb (Nat.eqb (length (rsplit_ws_1 (strip line))) 2));
    reflexivity.
Qed.

Lemma line_packages_two (line path owners : str) :
  rsplit_ws_1 (strip line) = [path; owners] ->
  line_packages line = split comma owners.
Proof. unfold line_packages. intros ->. reflexivity. Qed.

Lemma process_line_well_formed (d : dict) (path ws trail : str)
    (ps : list str) :
  Exists non_space path ->
  ws <> [] -> Forall is_space ws ->
  Forall package_name ps -> join comma ps <> [] ->
  Forall is_space trail ->
  process_line d (well_formed_line path ws ps trail) = fold_left iadd1 ps d.
Proof.
  intros Hpath Hws Fws Fps Hjoin Ftrail.
  rewrite process_line_packages. f_equal.
  rewrite (line_packages_two _ (strip path) (join comma ps)).
  - apply split_join; [|apply package_names_no_comma, Fps].
    intros ->. apply Hjoin. reflexivity.
  - unfold well_formed_line. apply parts_of_line; try assumption.
    apply join_non_space, package_names_non_space, Fps.
Qed.

(** C1. Processing a well-formed line "<path><whitespace><p1,...,pk>"
    adds one to the count of a package for each time the line lists it
    (a package that was absent is inserted, with count 1 when it is listed
    once) and leaves every package that is not listed as it was. *)
Theorem well_formed_line_increments (d : dict) (path ws trail : str)
    (ps : list str) :
  Exists non_space path ->
  ws <> [] -> Forall is_space ws ->
  Forall package_name ps -> join comma ps <> [] ->
  Forall is_space trail ->
  (forall q, In q ps ->
     get (process_line d (well_formed_line path ws ps trail)) q
     = Some (count d q + Z.of_nat (occurrences q ps)))
  /\ (forall q, occurrences q ps = 1%nat ->
        get (process_line d (well_formed_line path ws ps trail)) q
        = Some (count d q + 1))
  /\ (forall q, ~ In q ps ->
        get (process_line d (well_formed_line path ws ps trail)) q
        = get d q).
Proof.
  intros Hpath Hws Fws Fps Hjoin Ftrail.
  rewrite (process_line_well_formed d path ws trail ps) by assumption.
  split; [|split].
  - intros q Hin. apply get_fold_iadd1_listed, Hin.
  - intros q Hocc.
    assert (Hin : In q ps).
    { apply (count_occ_In str_eq_dec). unfold occurrences in Hocc. lia. }
    rewrite (get_fold_iadd1_listed _ _ _ Hin), Hocc. reflexivity.
  - intros q Hq. apply get_fold_iadd1_absent, Hq.
Qed.

Ltac chars := repeat (constructor || reflexivity || discriminate).

(** The line "usr/bin/my file   libc6,admin/vim\n" on a mapping that
    already counts 4 files for libc6 and 9 for busybox. *)
Lemma well_formed_line_increments_witness :
  let d := [(py "libc6", 4); (py "busybox", 9)] in
  let line := py "usr/bin/my file   libc6,admin/vim" ++ [10%N] in
  get (process_line d line) (py "libc6") = Some 5
  /\ get (process_line d line) (py "admin/vim") = Some 1
  /\ get (process_line d line) (py "busybox") = Some 9.
Proof.
  pose proof (well_formed_line_increments
                [(py "libc6", 4); (py "busybox", 9)]
                (py "usr/bin/my file") (py "   ") [10%N]
                [py "libc6"; py "admin/vim"]) as H.
  destruct H as (_ & H1 & H0).
  - apply Exists_cons_hd. reflexivity.
  - discriminate.
  - chars.
  - chars.
  - discriminate.
  - chars.
  - split; [|split].
    + apply (H1 (py "libc6")). reflexivity.
    + apply (H1 (py "admin/vim")). reflexivity.
    + apply (H0 (py "busybox")). vm_compute. intuition discriminate.
Defined.

(** The parts of a stripped line are never empty strings, and there are
    at most two of them. *)
Lemma parts_shape (line : str) :
  rsplit_ws_1 (strip line) = []
  \/ (exists tok, rsplit_ws_1 (strip line) = [tok] /\ tok <> [])
  \/ (exists path tok,
        rsplit_ws_1 (strip line) = [path; tok] /\ path <> [] /\ tok <> []).
Proof.
  destruct (rsplit_cases (strip line))
    as [[_ E] | [(l & t & r & _ & _ & Ht & _ & _ & E)
               | (p & w & t & r & _ & Hp & _ & _ & Ht & _ & _ & E)]].
  - left. exact E.
  - right. left. exists t. split; assumption.
  - right. right. exists p, t. repeat split; try assumption.
    destruct Hp as (p' & c & -> & _). intros H.
    apply app_eq_nil in H. destruct H as [_ H]. discriminate.
Qed.

(** A blank line has no parts. *)
Lemma blank_line_parts (line : str) :
  Forall is_space line -> rsplit_ws_1 (strip line) = [].
Proof.
  intros F. unfold strip, lstrip. rewrite (dropwhile_whole _ _ F).
  reflexivity.
Qed.

(** A lone token, whatever blanks surround it, is one part. *)
Lemma lone_token_parts (lead tok trail : str) :
  Forall is_space lead -> tok <> [] -> Forall non_space tok ->
  Forall is_space trail ->
  rsplit_ws_1 (strip (lead ++ tok ++ trail)) = [tok].
Proof.
  intros Fl Ht Ft Fr.
  assert (E : strip (lead ++ tok ++ trail) = tok).
  { unfold strip, lstrip. rewrite (dropwhile_skip _ _ _ Fl).
    rewrite (dropwhile_keep isspace tok trail Ht Ft).
    rewrite (rstrip_trailing _ _ Fr).
    apply (rstrip_token [] tok Ht Ft). }
  rewrite E. rewrite (rsplit_ws_1_from tok (rev tok)).
  - unfold rsplit_from.
    rewrite (takewhile_whole _ _ (non_space_negb _ (Forall_rev Ft))).
    rewrite (dropwhile_whole _ _ (non_space_negb _ (Forall_rev Ft))).
    simpl. rewrite rev_involutive. reflexivity.
  - rewrite <- (app_nil_r (rev tok)).
    apply dropwhile_keep; [apply rev_not_nil, Ht | apply Forall_rev, Ft].
  - apply rev_not_nil, Ht.
Qed.

(** C2. A line that does not split into exactly two non-empty parts (a
    blank line, a lone token) is discarded: the mapping is unchanged and
    the loop goes on with the next line, nothing is raised. *)
Theorem malformed_line_discarded (d : dict) (line : str) :
  ~ (exists a b, rsplit_ws_1 (strip line) = [a; b] /\ a <> [] /\ b <> []) ->
  process_line d line = d
  /\ forall rest, read_loop (Line line rest) d = read_loop rest d.
Proof.
  intros H.
  assert (E : process_line d line = d).
  { unfold process_line.
    destruct (parts_shape line) as [E | [(t & E & _) | (p & t & E & Hp & Ht)]].
    - rewrite E. reflexivity.
    - rewrite E. reflexivity.
    - exfalso. apply H. exists p, t. repeat split; assumption. }
  split; [exact E|]. intros rest. simpl. rewrite E. reflexivity.
Qed.

(** A header word alone on its line, then an empty line, between two
    regular lines. *)
Lemma malformed_line_discarded_witness :
  process_line [(py "vim", 3)] (py "FILE" ++ [10%N]) = [(py "vim", 3)]
  /\ process_line [(py "vim", 3)] [10%N] = [(py "vim", 3)].
Proof.
  split.
  - apply (malformed_line_discarded [(py "vim", 3)] (py "FILE" ++ [10%N])).
    intros (a & b & H & _). vm_compute in H. discriminate.
  - apply (malformed_line_discarded [(py "vim", 3)] [10%N]).
    intros (a & b & H & _). vm_compute in H. discriminate.
Defined.

(** C3. A line splits into (file path, owners) exactly when, once
    stripped, it is a path that ends in a non-blank, then a run of
    whitespace, then a token without whitespace: the delimiter is the last
    maximal run of whitespace, whatever whitespace the path has inside, and
    the loop counts the packages of that last token only. *)
Theorem split_on_last_whitespace_run (line path owners : str) :
  (rsplit_ws_1 (strip line) = [path; owners]
   <-> exists ws,
         strip line = path ++ ws ++ owners /\
         ends_non_space path /\
         ws <> [] /\ Forall is_space ws /\
         owners <> [] /\ Forall non_space owners)
  /\ (rsplit_ws_1 (strip line) = [path; owners] ->
      forall d, process_line d line = fold_left iadd1 (split comma owners) d).
Proof.
  split; [split|].
  - intros E.
    destruct (rsplit_cases (strip line))
      as [[_ E'] | [(l & t & r & _ & _ & _ & _ & _ & E')
                 | (p & w & t & r & Es & Hp & Hw & Fw & Ht & Ft & Fr & E')]];
      rewrite E in E'; try discriminate.
    injection E' as -> ->. exists w.
    assert (r = []) as ->.
    { apply (rstrip_no_trailing (lstrip line) (p ++ w ++ t) r); [|exact Fr].
      fold (strip line). rewrite Es, <- !app_assoc. reflexivity. }
    rewrite app_nil_r in Es. repeat split; assumption.
  - intros (ws & Es & Hp & Hw & Fw & Ho & Fo). rewrite Es.
    apply rsplit_two; assumption.
  - intros E d. rewrite process_line_packages.
    rewrite (line_packages_two _ _ _ E). reflexivity.
Qed.

(** The line "a b c pkg": the path is "a b c" and the owners field "pkg". *)
Lemma split_on_last_whitespace_run_witness :
  rsplit_ws_1 (strip (py "a b c pkg")) = [py "a b c"; py "pkg"]
  /\ process_line [] (py "a b c pkg") = [(py "pkg", 1)].
Proof.
  pose proof (split_on_last_whitespace_run
                (py "a b c pkg") (py "a b c") (py "pkg")) as [[_ H] K].
  assert (E : rsplit_ws_1 (strip (py "a b c pkg")) = [py "a b c"; py "pkg"]).
  { apply H. exists (py " "). split; [reflexivity|].
    split; [exists (py "a b "), 99%N; split; reflexivity|].
    split; [discriminate|]. split; [chars|]. split; [discriminate | chars]. }
  split; [exact E | exact (K E [])].
Defined.

(** C4. When a line splits into a path and an owners field, the count of a
    package rises by the number of times the owners field lists it: a
    package listed twice on the line is counted twice. *)
Theorem duplicate_owners_count_separately (d : dict) (line path owners q : str) :
  rsplit_ws_1 (strip line) = [path; owners] ->
  count (process_line d line) q
  = count d q + Z.of_nat (occurrences q (split comma owners)).
Proof.
  intros E. rewrite process_line_packages, (line_packages_two _ _ _ E).
  apply count_fold_iadd1.
Qed.

(** The line "path a,a" takes the count of "a" from 5 to 7. *)
Lemma duplicate_owners_count_separately_witness :
  occurrences (py "a") (split comma (py "a,a")) = 2%nat
  /\ count (process_line [(py "a", 5)] (py "path a,a")) (py "a") = 5 + 2.
Proof.
  split; [reflexivity|].
  exact (duplicate_owners_count_separately
           [(py "a", 5)] (py "path a,a") (py "path") (py "a,a") (py "a")
           eq_refl).
Defined.

(** ** The whole stream *)

Lemma read_loop_lines (lines : list str) (d : dict) :
  read_loop (lines_then_eof lines) d
  = Return (fold_left iadd1 (flat_map line_packages lines) d).
Proof.
  revert d. induction lines as [|l ls IH]; intros d; simpl; [reflexivity|].
  rewrite IH, process_line_packages, fold_left_app. reflexivity.
Qed.


(** A file object either ends after some lines or raises after some. *)
Lemma text_lines_cases (f : text_lines) :
  (exists lines, f = lines_then_eof lines)
  \/ (exists lines e, f = lines_then_raise lines e).
Proof.
  induction f as [|l rest [[ls ->] | (ls & e & ->)] | e].
  - left. exists []. reflexivity.
  - left. exists (l :: ls). reflexivity.
  - right. exists (l :: ls), e. reflexivity.
  - right. exists [], e. reflexivity.
Qed.

Lemma positive_counts_setitem (d : dict) (k : str) (v : Z) :
  1 <= v -> positive_counts d -> positive_counts (setitem d k v).
Proof.
  intros Hv. unfold positive_counts.
  induction 1 as [|[k' v'] d Hkv F IH]; simpl.
  - constructor; [exact Hv | constructor].
  - destruct (eqb k' k); constructor; try assumption.
Qed.

Lemma positive_counts_get (d : dict) (k : str) (v : Z) :
  positive_counts d -> get d k = Some v -> 1 <= v.
Proof.
  unfold positive_counts. induction 1 as [|[k' v'] d Hkv F IH]; simpl.
  - discriminate.
  - destruct (eqb k' k); [intros H; injection H as <-; exact Hkv | exact IH].
Qed.

Lemma setitem_setitem (d : dict) (k : str) (v v' : Z) :
  setitem (setitem d k v) k v' = setitem d k v'.
Proof.
  induction d as [|[k0 v0] d IH]; simpl.
  - rewrite eqb_refl. reflexivity.
  - destruct (eqb k0 k) eqn:E; simpl; rewrite E; [reflexivity|].
    rewrite IH. reflexivity.
Qed.

(** One [d[k] += 1] keeps every count at 1 or more, although a missing
    key passes through 0 inside the statement. *)
Lemma positive_counts_iadd1 (d : dict) (k : str) :
  positive_counts d -> positive_counts (iadd1 d k).
Proof.
  intros P. unfold iadd1, defaultdict_getitem.
  destruct (get d k) as [v|] eqn:E.
  - apply positive_counts_setitem; [|exact P].
    pose proof (positive_counts_get _ _ _ P E). lia.
  - rewrite setitem_setitem. apply positive_counts_setitem; [lia | exact P].
Qed.

Lemma positive_counts_fold (ps : list str) (d : dict) :
  positive_counts d -> positive_counts (fold_left iadd1 ps d).
Proof.
  revert d. induction ps as [|p ps IH]; intros d P; simpl; [exact P|].
  apply IH, positive_counts_iadd1, P.
Qed.

(** C9. Starting from the empty mapping, after any number [n] of the
    increments that the lines of a stream cause (so at every point of the
    aggregation, and at its end), every key of the mapping has a count of
    at least 1; in particular the mapping [read_loop] returns has. *)
Theorem counts_stay_positive (lines : list str) (n : nat) :
  positive_counts
    (fold_left iadd1 (firstn n (flat_map line_packages lines)) Dict.empty)
  /\ exists d, read_loop (lines_then_eof lines) Dict.empty = Return d
               /\ positive_counts d
               /\ forall k v, get d k = Some v -> 1 <= v.
Proof.
  split.
  - apply positive_counts_fold. constructor.
  - exists (fold_left iadd1 (flat_map line_packages lines) Dict.empty).
    split; [apply read_loop_lines|].
    assert (P : positive_counts
                  (fold_left iadd1 (flat_map line_packages lines) Dict.empty))
      by (apply positive_counts_fold; constructor).
    split; [exact P|]. intros k v. apply positive_counts_get, P.
Qed.

(** ** Reading failures *)

Section Reading.
Variable requests_get : str -> http_result.
Variable gzip_open_rt : list Byte.byte -> text_lines.

(** What [parse_contents_file] does when the stream can be read to its
    end. *)
Lemma parse_contents_file_lines (gz : list Byte.byte) (lines : list str)
    (w : world) :
  gzip_open_rt gz = lines_then_eof lines ->
  parse_contents_file gzip_open_rt gz w
  = (Return (fold_left iadd1 (flat_map line_packages lines) Dict.empty), w).
Proof.
  intros E. unfold parse_contents_file, try_except.
  rewrite E, read_loop_lines. reflexivity.
Qed.


(** The outcome of [parse_contents_file] does not depend on what the
    process has written so far. *)
Lemma parse_contents_file_outcome (gz : list Byte.byte) (w1 w2 : world) :
  fst (parse_contents_file gzip_open_rt gz w1)
  = fst (parse_contents_file gzip_open_rt gz w2).
Proof.
  unfold parse_contents_file, try_except.
  destruct (read_loop (gzip_open_rt gz) Dict.empty) as [d|e];
    [reflexivity|].
  destruct (is_OSError e); reflexivity.
Qed.

(** [download_contents_file] when the server answers with a status that
    is no error. *)
Lemma download_ok (arch mirror_base : str) (status : Z) (reason : str)
    (gz : list Byte.byte) (w : world) :
  requests_get (contents_url arch mirror_base) = Response status reason gz ->
  raise_for_status status reason (contents_url arch mirror_base) = None ->
  download_contents_file requests_get arch mirror_base w
  = (Return gz,
     mkWorld (stdout w)
       (log w ++ [(INFO, py "Downloading: "
                         ++ contents_url arch mirror_base)])).
Proof.
  intros E S. unfold download_contents_file, bind, logging_info.
  rewrite E, S. reflexivity.
Qed.



(** C8. Parsing the same compressed bytes twice gives the same result:
    the outcome (the mapping, or the failure) is a function of the bytes
    alone, whatever the process did before, and in particular a second
    parse after a first one returns what the first returned. *)
Theorem parsing_is_deterministic (gz : list Byte.byte) (w1 w2 : world) :
  fst (parse_contents_file gzip_open_rt gz w1)
  = fst (parse_contents_file gzip_open_rt gz w2)
  /\ fst (parse_contents_file gzip_open_rt gz
            (snd (parse_contents_file gzip_open_rt gz w1)))
     = fst (parse_contents_file gzip_open_rt gz w1).
Proof.
  split; apply parse_contents_file_outcome.
Qed.

End Reading.



(** ** The command line and the download *)

Lemma print_all_world (lines : list str) (w : world) :
  print_all lines w = (Return tt, mkWorld (stdout w ++ lines) (log w)).
Proof.
  revert w. induction lines as [|l ls IH]; intros w; simpl.
  - unfold ret. rewrite app_nil_r. destruct w; reflexivity.
  - unfold bind, print. rewrite IH. simpl. rewrite <- app_assoc. reflexivity.
Qed.

Lemma print_top_packages_world (d : dict) (top_n : Z) (w : world) :
  print_top_packages d top_n w
  = (Return tt,
     mkWorld (stdout w ++ top_lines d top_n)
       (log w ++ [(INFO, 10%N :: py "Top " ++ of_int top_n
                         ++ py " packages by number of files:" ++ [10%N])])).
Proof.
  unfold print_top_packages, bind, logging_info.
  rewrite print_all_world. reflexivity.
Qed.

(** [download_contents_file] logs the URL, then returns the body or raises
    a [DownloadError]. *)
Lemma download_result (requests_get : str -> http_result)
    (arch mirror_base : str) (w : world) :
  download_contents_file requests_get arch mirror_base w
  = (match requests_get (contents_url arch mirror_base) with
     | Response status_code reason content =>
         match raise_for_status status_code reason
                 (contents_url arch mirror_base) with
         | Some e => Raise (DownloadError (py "HTTP error: " ++ e))
         | None => Return content
         end
     | RequestException e => Raise (DownloadError (py "Network error: " ++ e))
     | OtherFailure class_name e => Raise (OtherError class_name e)
     end,
     mkWorld (stdout w)
       (log w ++ [(INFO, py "Downloading: " ++ contents_url arch mirror_base)])).
Proof.
  unfold download_contents_file, bind, logging_info.
  destruct (requests_get (contents_url arch mirror_base))
    as [s r c | e | cl e];
    [destruct (raise_for_status s r (contents_url arch mirror_base))| |];
    reflexivity.
Qed.

(** Whatever the collaborators do, the first thing [main] does is to log
    the URL it asks for, and that URL is built on the module constant. *)
Lemma main_downloads_from_constant (requests_get : str -> http_result)
    (gzip_open_rt : list Byte.byte -> text_lines)
    (environ : environment) (argv : command_line) :
  exists r out rest,
    main requests_get gzip_open_rt environ argv world0
    = (r, mkWorld out
            ((INFO, py "Downloading: "
                    ++ contents_url (given_arch argv) DEBIAN_MIRROR) :: rest)).
Proof.
  unfold main. unfold bind at 1. unfold try_except at 1.
  cbn [arch top parse_arguments].
  rewrite download_result. cbn [world0 stdout log app].
  destruct (requests_get (contents_url (given_arch argv) DEBIAN_MIRROR))
    as [status reason content | msg | cl msg].
  - destruct (raise_for_status status reason
                (contents_url (given_arch argv) DEBIAN_MIRROR)) as [m|].
    + eexists _, _, _. reflexivity.
    + unfold bind, parse_contents_file, try_except.
      destruct (read_loop (gzip_open_rt content) Dict.empty) as [d|e].
      * rewrite print_top_packages_world. eexists _, _, _. reflexivity.
      * destruct (is_OSError e); eexists _, _, _; reflexivity.
  - eexists _, _, _. reflexivity.
  - eexists _, _, _. reflexivity.
Qed.

(** C5. The script does not read [args.mirror]: [main] passes the module
    constant [DEBIAN_MIRROR] to [download_contents_file]. With
    [--mirror http://example.org/debian/] on the command line the
    specification's base gives the URL
    "http://example.org/debian/Contents-amd64.gz", and the script asks for
    the file of the built-in mirror; changing the flag or the environment
    changes nothing of what [main] does. *)
Theorem mirror_option_is_ignored (requests_get : str -> http_result)
    (gzip_open_rt : list Byte.byte -> text_lines) :
  contents_url (py "amd64")
    (spec_mirror_base no_environ
       (mkCommandLine (py "amd64") None (Some (py "http://example.org/debian/"))))
  = py "http://example.org/debian/Contents-amd64.gz"
  /\ (exists r out rest,
        main requests_get gzip_open_rt no_environ
          (mkCommandLine (py "amd64") None
             (Some (py "http://example.org/debian/"))) world0
        = (r, mkWorld out
                ((INFO, py "Downloading: http://ftp.uk.debian.org/debian/dists/stable/main/Contents-amd64.gz")
                 :: rest)))
  /\ (forall environ environ' argv m,
        main requests_get gzip_open_rt environ argv
        = main requests_get gzip_open_rt environ'
            (mkCommandLine (given_arch argv) (given_top argv) m)).
Proof.
  split; [reflexivity|]. split.
  - apply (main_downloads_from_constant requests_get gzip_open_rt no_environ
             (mkCommandLine (py "amd64") None
                (Some (py "http://example.org/debian/")))).
  - intros environ environ' argv m. reflexivity.
Qed.

(** ** The report *)

Lemma decimal_reads_back (n : Z) :
  option_map Z.of_int (NilZero.int_of_string (decimal n)) = Some n.
Proof.
  unfold decimal. rewrite NilZero.isi.
  - simpl. f_equal. apply DecimalZ.of_to.
  - destruct n; simpl; try discriminate.
    intros H. injection H as H.
    exact (DecimalPos.Unsigned.to_uint_nonnil _ H).
  - destruct n; simpl; try discriminate.
    intros H. injection H as H.
    exact (DecimalPos.Unsigned.to_uint_nonnil _ H).
Qed.

Lemma length_ljust (w : nat) (s : str) :
  length (ljust w s) = Nat.max w (length s).
Proof. unfold ljust. rewrite length_app, repeat_length. lia. Qed.

(** C6, as the code has it. A report line is the package name, then
    spaces up to column 30 when the name is shorter (the name field is
    as wide as the longer of 30 and the name: a long name is printed
    whole), then one space and the count in decimal; these lines, for the
    pairs of the sorted order that the slice keeps, are what
    [print_top_packages] prints. *)
Theorem report_line_format (d : dict) (top_n : Z) (w : world) (pkg : str)
    (count : Z) :
  format_line pkg count
  = pkg ++ repeat space (30 - length pkg) ++ space :: py (decimal count)
  /\ length (pkg ++ repeat space (30 - length pkg)) = Nat.max 30 (length pkg)
  /\ option_map Z.of_int (NilZero.int_of_string (decimal count)) = Some count
  /\ stdout (snd (print_top_packages d top_n w))
     = stdout w
       ++ map (fun '(p, c) => format_line p c)
              (slice_to (sorted_desc d) top_n).
Proof.
  split; [|split; [|split]].
  - unfold format_line, ljust, of_int. rewrite <- app_assoc. reflexivity.
  - apply (length_ljust 30 pkg).
  - apply decimal_reads_back.
  - rewrite print_top_packages_world. reflexivity.
Qed.

(** A package name of 31 characters is printed whole: the line has 31
    columns before the space, where the specification's line has 30. *)
Lemma long_name_not_truncated :
  length (py "linux-headers-6.1.0-18-arm64-rt") = 31%nat
  /\ format_line (py "linux-headers-6.1.0-18-arm64-rt") 812
     = py "linux-headers-6.1.0-18-arm64-rt 812"
  /\ spec_format_line (py "linux-headers-6.1.0-18-arm64-rt") 812
     = py "linux-headers-6.1.0-18-arm64-r 812"
  /\ stdout (snd (print_top_packages
                    [(py "linux-headers-6.1.0-18-arm64-rt", 812)] 10 world0))
     = [py "linux-headers-6.1.0-18-arm64-rt 812"]
  /\ format_line (py "linux-headers-6.1.0-18-arm64-rt") 812
     <> spec_format_line (py "linux-headers-6.1.0-18-arm64-rt") 812.
Proof.
  repeat split; try reflexivity. vm_compute. discriminate.
Qed.

Lemma insert_desc_perm (x : str * Z) (l : list (str * Z)) :
  Permutation (insert_desc x l) (x :: l).
Proof.
  induction l as [|y l IH]; simpl; [apply Permutation_refl|].
  destruct (snd x <? snd y); [|apply Permutation_refl].
  apply perm_trans with (y :: x :: l); [|apply perm_swap].
  apply perm_skip, IH.
Qed.

Lemma sorted_desc_perm (l : list (str * Z)) : Permutation (sorted_desc l) l.
Proof.
  induction l as [|x l IH]; simpl; [constructor|].
  apply perm_trans with (x :: sorted_desc l);
    [apply insert_desc_perm | apply perm_skip, IH].
Qed.

Lemma sorted_desc_length (l : list (str * Z)) :
  length (sorted_desc l) = length l.
Proof. apply Permutation_length, sorted_desc_perm. Qed.

Lemma insert_desc_descending (x : str * Z) (l : list (str * Z)) :
  descending l -> descending (insert_desc x l).
Proof.
  unfold descending. induction 1 as [|y l S IH F]; simpl.
  - constructor; constructor.
  - destruct (snd x <? snd y) eqn:E.
    + apply Z.ltb_lt in E. constructor; [exact IH|].
      apply (Permutation_Forall (Permutation_sym (insert_desc_perm x l))).
      constructor; [lia | exact F].
    + apply Z.ltb_ge in E. constructor; [constructor; assumption|].
      constructor; [exact E|].
      revert F. apply Forall_impl. intros b Hb. lia.
Qed.

Lemma sorted_desc_descending (l : list (str * Z)) : descending (sorted_desc l).
Proof.
  induction l as [|x l IH]; simpl; [constructor|].
  apply insert_desc_descending, IH.
Qed.

(** C10. With a negative [top_n] the reporter prints the sorted order
    without its last [-top_n] entries: the order is a stable descending
    sort of the mapping, what is printed are the lines of [kept], and
    [dropped] has [-top_n] entries (all of them when there are fewer);
    nothing is printed exactly when [-top_n] is at least the number of
    packages. *)
Theorem negative_top_drops_last (d : dict) (top_n : Z) (w : world) :
  top_n < 0 ->
  exists kept dropped,
    sorted_desc d = kept ++ dropped
    /\ length dropped = Nat.min (Z.to_nat (- top_n)) (length d)
    /\ stdout (snd (print_top_packages d top_n w))
       = stdout w ++ map (fun '(p, c) => format_line p c) kept
    /\ (kept = [] <-> (length d <= Z.to_nat (- top_n))%nat)
    /\ Permutation (sorted_desc d) d
    /\ descending (sorted_desc d).
Proof.
  intros Hn.
  pose (k := Z.to_nat (Z.max 0 (Z.of_nat (length (sorted_desc d)) + top_n))).
  assert (Hslice : slice_to (sorted_desc d) top_n = firstn k (sorted_desc d)).
  { unfold slice_to. apply Z.ltb_lt in Hn. rewrite Hn. reflexivity. }
  pose proof (sorted_desc_length d) as Hlen.
  exists (firstn k (sorted_desc d)), (skipn k (sorted_desc d)).
  split; [symmetry; apply firstn_skipn|].
  split; [rewrite length_skipn; unfold k; lia|].
  split.
  { rewrite print_top_packages_world. unfold top_lines. rewrite Hslice.
    reflexivity. }
  split; [|split; [apply sorted_desc_perm | apply sorted_desc_descending]].
  split.
  - intros E. apply (f_equal (@length _)) in E.
    rewrite length_firstn in E. simpl in E. unfold k in E. lia.
  - intros Hle. apply length_zero_iff_nil.
    rewrite length_firstn. unfold k. lia.
Qed.

(** The mapping of the specification's example with [top_n = -1]: the
    last entry of the order, vim, is left out. *)
Lemma negative_top_drops_last_witness :
  exists kept dropped,
    sorted_desc [(py "busybox", 10); (py "libc6", 500); (py "vim", 10)]
    = kept ++ dropped
    /\ length dropped
       = Nat.min (Z.to_nat (- (-1)))
           (length [(py "busybox", 10); (py "libc6", 500); (py "vim", 10)])
    /\ stdout (snd (print_top_packages
                      [(py "busybox", 10); (py "libc6", 500); (py "vim", 10)]
                      (-1) world0))
       = stdout world0 ++ map (fun '(p, c) => format_line p c) kept
    /\ (kept = []
        <-> (length [(py "busybox", 10); (py "libc6", 500); (py "vim", 10)]
             <= Z.to_nat (- (-1)))%nat)
    /\ Permutation
         (sorted_desc [(py "busybox", 10); (py "libc6", 500); (py "vim", 10)])
         [(py "busybox", 10); (py "libc6", 500); (py "vim", 10)]
    /\ descending
         (sorted_desc [(py "busybox", 10); (py "libc6", 500); (py "vim", 10)]).
Proof.
  apply (negative_top_drops_last
           [(py "busybox", 10); (py "libc6", 500); (py "vim", 10)] (-1) world0).
  reflexivity.
Defined.

Example negative_top_example :
  top_lines [(py "busybox", 10); (py "libc6", 500); (py "vim", 10)] (-1)
  = [py "libc6                          500";
     py "busybox                        10"].
Proof. reflexivity. Qed.

(** * Further properties *)

(** ** The mapping as a histogram *)

Lemma get_None_mem (d : dict) (k : str) :
  get d k = None <-> mem k (keys d) = false.
Proof.
  unfold mem, keys. induction d as [|[k' v] d IH]; simpl; [tauto|].
  destruct (eqb k' k); simpl; [split; discriminate | exact IH].
Qed.

Lemma mem_In (k : str) (l : list str) : mem k l = true <-> In k l.
Proof.
  unfold mem. rewrite existsb_exists. split.
  - intros (x & Hin & E). destruct (eqb_spec x k); [subst; exact Hin|].
    discriminate.
  - intros Hin. exists k. split; [exact Hin | apply eqb_refl].
Qed.

Lemma keys_setitem (d : dict) (k : str) (v : Z) :
  keys (setitem d k v) = if mem k (keys d) then keys d else keys d ++ [k].
Proof.
  unfold mem, keys. induction d as [|[k' v'] d IH]; simpl; [reflexivity|].
  destruct (eqb k' k); simpl; [reflexivity|].
  rewrite IH. destruct (existsb _ _); reflexivity.
Qed.

Lemma keys_iadd1 (d : dict) (k : str) :
  keys (iadd1 d k) = if mem k (keys d) then keys d else keys d ++ [k].
Proof.
  unfold iadd1, defaultdict_getitem.
  destruct (get d k) as [v|] eqn:E.
  - apply keys_setitem.
  - rewrite setitem_setitem. apply keys_setitem.
Qed.

Lemma keys_fold_iadd1 (ps : list str) (d : dict) :
  keys (fold_left iadd1 ps d) = keys d ++ first_seen (keys d) ps.
Proof.
  revert d. induction ps as [|p ps IH]; intros d; simpl.
  - symmetry. apply app_nil_r.
  - rewrite IH, keys_iadd1. destruct (mem p (keys d)); [reflexivity|].
    rewrite <- app_assoc. reflexivity.
Qed.

Lemma first_seen_fresh (seen ps : list str) (k : str) :
  In k (first_seen seen ps) -> In k ps /\ ~ In k seen.
Proof.
  revert seen. induction ps as [|p ps IH]; intros seen; simpl; [tauto|].
  destruct (mem p seen) eqn:E.
  - intros H. destruct (IH _ H). tauto.
  - intros [<- | H].
    + split; [tauto|]. intros Hin. apply mem_In in Hin. congruence.
    + destruct (IH _ H) as [H1 H2]. split; [tauto|].
      intros Hin. apply H2, in_or_app. left. exact Hin.
Qed.

Lemma first_seen_complete (seen ps : list str) (k : str) :
  In k ps -> ~ In k seen -> In k (first_seen seen ps).
Proof.
  revert seen. induction ps as [|p ps IH]; intros seen; simpl; [tauto|].
  intros Hin Hk. destruct (mem p seen) eqn:E.
  - destruct Hin as [-> | Hin]; [|apply IH; assumption].
    apply mem_In in E. contradiction.
  - destruct (str_eq_dec p k) as [->|Hne]; [left; reflexivity|].
    right. apply IH.
    + destruct Hin as [E' | Hin]; [contradiction | exact Hin].
    + intros H. apply in_app_or in H. destruct H as [H | [H | []]];
        [contradiction | congruence].
Qed.

Lemma first_seen_NoDup (seen ps : list str) : NoDup (first_seen seen ps).
Proof.
  revert seen. induction ps as [|p ps IH]; intros seen; simpl;
    [constructor|].
  destruct (mem p seen); [apply IH|].
  constructor; [|apply IH].
  intros H. apply first_seen_fresh in H. destruct H as [_ H].
  apply H, in_or_app. right. left. reflexivity.
Qed.

Lemma total_setitem (d : dict) (k : str) (v : Z) :
  total (setitem d k v) = total d - count d k + v.
Proof.
  unfold count. induction d as [|[k' v'] d IH]; simpl.
  - lia.
  - destruct (eqb k' k); simpl; [lia|]. rewrite IH. lia.
Qed.

Lemma total_iadd1 (d : dict) (k : str) : total (iadd1 d k) = total d + 1.
Proof.
  unfold iadd1, defaultdict_getitem.
  destruct (get d k) as [v|] eqn:E.
  - rewrite total_setitem. unfold count. rewrite E. lia.
  - rewrite setitem_setitem, total_setitem. unfold count. rewrite E. lia.
Qed.

Lemma total_fold_iadd1 (ps : list str) (d : dict) :
  total (fold_left iadd1 ps d) = total d + Z.of_nat (length ps).
Proof.
  revert d. induction ps as [|p ps IH]; intros d; simpl length; simpl fold_left.
  - lia.
  - rewrite IH, total_iadd1. lia.
Qed.

Lemma length_split (s : str) : length (split comma s) = S (commas s).
Proof.
  unfold commas. induction s as [|c s IH]; simpl; [reflexivity|].
  destruct (N.eqb_spec c comma) as [->|Hne].
  - destruct (N.eq_dec comma comma); [|contradiction]. simpl. rewrite IH.
    reflexivity.
  - destruct (N.eq_dec c comma); [contradiction|].
    destruct (split comma s); simpl in *; [discriminate IH | exact IH].
Qed.

(** X1. The mapping a stream gives is the histogram of the package names
    its lines list: the count of a name is the number of times the lines
    list it, and a name has no entry exactly when no line lists it. *)
Theorem stream_histogram (lines : list str) :
  exists d,
    read_loop (lines_then_eof lines) Dict.empty = Return d
    /\ (forall q,
          count d q = Z.of_nat (occurrences q (flat_map line_packages lines)))
    /\ (forall q,
          get d q = None <-> ~ In q (flat_map line_packages lines)).
Proof.
  exists (fold_left iadd1 (flat_map line_packages lines) Dict.empty).
  split; [apply read_loop_lines|]. split.
  - intros q. rewrite count_fold_iadd1. reflexivity.
  - intros q. rewrite get_None_mem, keys_fold_iadd1. simpl.
    split.
    + intros E Hin.
      assert (M : mem q (first_seen [] (flat_map line_packages lines)) = true).
      { apply mem_In, first_seen_complete; [exact Hin | intros []]. }
      congruence.
    + intros Hq.
      destruct (mem q (first_seen [] (flat_map line_packages lines))) eqn:E;
        [|reflexivity].
      apply mem_In, first_seen_fresh in E. tauto.
Qed.

(** X2. The keys of the mapping are the listed package names, each once,
    in the order in which the stream first lists them. *)
Theorem keys_in_first_seen_order (lines : list str) :
  exists d,
    read_loop (lines_then_eof lines) Dict.empty = Return d
    /\ keys d = first_seen [] (flat_map line_packages lines)
    /\ NoDup (keys d)
    /\ (forall k, In k (keys d) <-> In k (flat_map line_packages lines)).
Proof.
  exists (fold_left iadd1 (flat_map line_packages lines) Dict.empty).
  split; [apply read_loop_lines|].
  rewrite keys_fold_iadd1. simpl.
  split; [reflexivity|]. split; [apply first_seen_NoDup|].
  intros k. split.
  - intros H. apply first_seen_fresh in H. tauto.
  - intros H. apply first_seen_complete; [exact H | intros []].
Qed.

(** X3. A line adds to the sum of all counts the number of names it
    lists: one more than the number of commas of the owners field when the
    line splits in two, nothing otherwise. *)
Theorem line_adds_listed_names (d : dict) (line : str) :
  total (process_line d line)
  = total d
    + match rsplit_ws_1 (strip line) with
      | [_; owners] => Z.of_nat (S (commas owners))
      | _ => 0
      end.
Proof.
  rewrite process_line_packages, total_fold_iadd1. f_equal.
  destruct (parts_shape line) as [E | [(t & E & _) | (p & t & E & _)]].
  - unfold line_packages. rewrite E. reflexivity.
  - unfold line_packages. rewrite E. reflexivity.
  - rewrite (line_packages_two _ _ _ E), E, length_split. reflexivity.
Qed.

(** X4. The counts do not depend on the order of the lines of the
    stream. *)
Theorem line_order_irrelevant (lines lines' : list str) :
  Permutation lines lines' ->
  exists d d',
    read_loop (lines_then_eof lines) Dict.empty = Return d
    /\ read_loop (lines_then_eof lines') Dict.empty = Return d'
    /\ forall q, count d q = count d' q.
Proof.
  intros P. eexists _, _.
  split; [apply read_loop_lines|]. split; [apply read_loop_lines|].
  intros q. rewrite !count_fold_iadd1. unfold occurrences. f_equal. f_equal.
  apply Permutation_count_occ. apply Permutation_flat_map, P.
Qed.

Lemma line_order_irrelevant_witness :
  exists d d',
    read_loop (lines_then_eof [py "bin/ls coreutils"; py "bin/sh dash,busybox"])
      Dict.empty = Return d
    /\ read_loop
         (lines_then_eof [py "bin/sh dash,busybox"; py "bin/ls coreutils"])
         Dict.empty = Return d'
    /\ forall q, count d q = count d' q.
Proof.
  apply (line_order_irrelevant
           [py "bin/ls coreutils"; py "bin/sh dash,busybox"]
           [py "bin/sh dash,busybox"; py "bin/ls coreutils"]).
  apply perm_swap.
Defined.

(** X5. When the lines read are the lines of one list followed by the
    lines of another, the count of every package is the sum of its counts
    for the two lists of lines. (This is about lines: two compressed
    streams put end to end give these lines only when the first ends
    with a line terminator.) *)
Theorem line_lists_add_up (lines1 lines2 : list str) :
  exists d1 d2 d,
    read_loop (lines_then_eof lines1) Dict.empty = Return d1
    /\ read_loop (lines_then_eof lines2) Dict.empty = Return d2
    /\ read_loop (lines_then_eof (lines1 ++ lines2)) Dict.empty = Return d
    /\ forall q, count d q = count d1 q + count d2 q.
Proof.
  eexists _, _, _.
  split; [apply read_loop_lines|]. split; [apply read_loop_lines|].
  split; [apply read_loop_lines|].
  intros q. rewrite !count_fold_iadd1. unfold occurrences.
  rewrite flat_map_app, count_occ_app. simpl. lia.
Qed.

(** ** Blanks around a line *)

Lemma dropwhile_app_left {A} (p : A -> bool) (l r : list A) :
  dropwhile p l <> [] -> dropwhile p (l ++ r) = dropwhile p l ++ r.
Proof.
  induction l as [|x l IH]; simpl; [contradiction|].
  destruct (p x); [exact IH | reflexivity].
Qed.

Lemma strip_surrounded (lead s trail : str) :
  Forall is_space lead -> Forall is_space trail ->
  strip (lead ++ s ++ trail) = strip s.
Proof.
  intros Fl Ft. unfold strip, lstrip.
  rewrite (dropwhile_skip isspace _ _ Fl).
  destruct (dropwhile isspace s) as [|c r] eqn:E.
  - apply dropwhile_nil_all in E.
    rewrite (dropwhile_skip isspace _ _ E), (dropwhile_whole isspace _ Ft).
    reflexivity.
  - rewrite dropwhile_app_left by (rewrite E; discriminate).
    rewrite E. apply rstrip_trailing, Ft.
Qed.

(** X6. Whitespace before and after a line (indentation, the newline, a
    carriage return) changes nothing of what the line does to the
    mapping. *)
Theorem surrounding_blanks_irrelevant (d : dict) (lead line trail : str) :
  Forall is_space lead -> Forall is_space trail ->
  process_line d (lead ++ line ++ trail) = process_line d line.
Proof.
  intros Fl Ft. unfold process_line.
  rewrite (strip_surrounded lead line trail Fl Ft). reflexivity.
Qed.

Lemma surrounding_blanks_irrelevant_witness :
  process_line [(py "dash", 2)] (py "  " ++ py "bin/sh dash" ++ [13%N; 10%N])
  = process_line [(py "dash", 2)] (py "bin/sh dash").
Proof.
  apply (surrounding_blanks_irrelevant [(py "dash", 2)]
           (py "  ") (py "bin/sh dash") [13%N; 10%N]); chars.
Defined.

(** ** The report *)

Lemma descending_app (k r : list (str * Z)) :
  descending (k ++ r) ->
  forall a b, In a k -> In b r -> snd b <= snd a.
Proof.
  unfold descending. induction k as [|x k IH]; simpl; intros S a b Ha Hb;
    [contradiction|].
  inversion S as [|? ? S' F]; subst.
  destruct Ha as [<- | Ha].
  - rewrite Forall_forall in F. apply F, in_or_app. right. exact Hb.
  - apply (IH S' a b Ha Hb).
Qed.

(** X7. With [top_n >= 0] the reporter prints the first [top_n] entries of
    the descending order, all of them when there are fewer: as many lines
    as the smaller of [top_n] and the number of packages, and no package
    that is left out has more files than one that is printed. *)
Theorem top_prints_largest (d : dict) (top_n : Z) (w : world) :
  0 <= top_n ->
  exists kept dropped,
    sorted_desc d = kept ++ dropped
    /\ stdout (snd (print_top_packages d top_n w))
       = stdout w ++ map (fun '(p, c) => format_line p c) kept
    /\ length kept = Nat.min (Z.to_nat top_n) (length d)
    /\ (forall a b, In a kept -> In b dropped -> snd b <= snd a)
    /\ ((length d <= Z.to_nat top_n)%nat -> dropped = []).
Proof.
  intros Hn.
  assert (Hslice : slice_to (sorted_desc d) top_n
                   = firstn (Z.to_nat top_n) (sorted_desc d)).
  { unfold slice_to. apply Z.ltb_ge in Hn. rewrite Hn. reflexivity. }
  pose proof (sorted_desc_length d) as Hlen.
  exists (firstn (Z.to_nat top_n) (sorted_desc d)),
    (skipn (Z.to_nat top_n) (sorted_desc d)).
  split; [symmetry; apply firstn_skipn|].
  split.
  { rewrite print_top_packages_world. unfold top_lines. rewrite Hslice.
    reflexivity. }
  split; [rewrite length_firstn; lia|].
  split.
  - apply descending_app. rewrite firstn_skipn.
    apply sorted_desc_descending.
  - intros Hle. apply skipn_all2. lia.
Qed.

(** The specification's mapping with [top_n = 2]. *)
Lemma top_prints_largest_witness :
  exists kept dropped,
    sorted_desc [(py "busybox", 10); (py "libc6", 500); (py "vim", 10)]
    = kept ++ dropped
    /\ stdout (snd (print_top_packages
                      [(py "busybox", 10); (py "libc6", 500); (py "vim", 10)]
                      2 world0))
       = stdout world0 ++ map (fun '(p, c) => format_line p c) kept
    /\ length kept
       = Nat.min (Z.to_nat 2)
           (length [(py "busybox", 10); (py "libc6", 500); (py "vim", 10)])
    /\ (forall a b, In a kept -> In b dropped -> snd b <= snd a)
    /\ ((length [(py "busybox", 10); (py "libc6", 500); (py "vim", 10)]
         <= Z.to_nat 2)%nat -> dropped = []).
Proof.
  apply (top_prints_largest
           [(py "busybox", 10); (py "libc6", 500); (py "vim", 10)] 2 world0).
  lia.
Defined.

Lemma with_count_insert_desc (c : Z) (x : str * Z) (l : list (str * Z)) :
  with_count c (insert_desc x l) = with_count c (x :: l).
Proof.
  unfold with_count. induction l as [|y l IH]; [reflexivity|].
  simpl insert_desc. destruct (snd x <? snd y) eqn:E; [|reflexivity].
  apply Z.ltb_lt in E. simpl filter at 1. rewrite IH. simpl.
  destruct (Z.eqb_spec (snd x) c), (Z.eqb_spec (snd y) c);
    try reflexivity. lia.
Qed.

(** X8. The sort of the reporter is stable: the packages that have the
    same count come out in the order the mapping has them, which is the
    order in which the stream first lists them. *)
Theorem ties_keep_mapping_order (d : dict) (c : Z) :
  with_count c (sorted_desc d) = with_count c d.
Proof.
  induction d as [|x d IH]; [reflexivity|].
  simpl sorted_desc. rewrite with_count_insert_desc.
  unfold with_count in *. simpl. rewrite IH. reflexivity.
Qed.

Lemma digits_non_space (d : Decimal.uint) :
  Forall non_space (py (NilEmpty.string_of_uint d)).
Proof.
  induction d; simpl; constructor; try reflexivity; assumption.
Qed.

Lemma of_int_token (n : Z) : of_int n <> [] /\ Forall non_space (of_int n).
Proof.
  unfold of_int, decimal, NilZero.string_of_int, NilZero.string_of_uint.
  destruct (Z.to_int n) as [d|d]; destruct d;
    (split; [discriminate|]);
    repeat (constructor; [reflexivity|]);
    try apply digits_non_space; constructor.
Qed.

(** X9. A report line reads back with the splitter of the aggregator:
    for a name that ends in a non-blank, splitting the line on its last
    whitespace run gives the name and the decimal count, whatever the
    padding. *)
Theorem report_line_splits_back (pkg : str) (count : Z) :
  ends_non_space pkg ->
  rsplit_ws_1 (format_line pkg count) = [pkg; of_int count].
Proof.
  intros Hp. unfold format_line, ljust.
  replace ((pkg ++ repeat space (30 - length pkg)) ++ space :: of_int count)
    with (pkg ++ (repeat space (30 - length pkg) ++ [space]) ++ of_int count)
    by (rewrite <- !app_assoc; reflexivity).
  destruct (of_int_token count) as [Hne Hns].
  apply rsplit_two; try assumption.
  - intros H. apply app_eq_nil in H. destruct H as [_ H]. discriminate.
  - apply Forall_app. split; [|constructor; [reflexivity | constructor]].
    apply Forall_forall. intros c Hc. apply repeat_spec in Hc. subst.
    reflexivity.
Qed.

Lemma report_line_splits_back_witness :
  rsplit_ws_1 (format_line (py "admin/my pkg") 42)
  = [py "admin/my pkg"; of_int 42].
Proof.
  apply (report_line_splits_back (py "admin/my pkg") 42).
  exists (py "admin/my pk"), 103%N. split; reflexivity.
Defined.

(** ** The download and the whole run *)

(** X10. [download_contents_file] logs the URL it asks for and prints
    nothing. For a response whose status is below 400 or above 599 it
    returns the body; for a status between 400 and 599 it raises a
    [DownloadError] whose message starts with "HTTP error: "; for a
    [RequestException] it raises a [DownloadError] whose message is
    "Network error: " and the message of the exception; an exception of
    any other class is not converted and goes up as it is. *)
Theorem download_outcomes (requests_get : str -> http_result)
    (arch mirror_base : str) (w : world) :
  snd (download_contents_file requests_get arch mirror_base w)
  = mkWorld (stdout w)
      (log w ++ [(INFO, py "Downloading: " ++ mirror_base
                        ++ py "Contents-" ++ arch ++ py ".gz")])
  /\ (forall status reason content,
        requests_get (contents_url arch mirror_base)
        = Response status reason content ->
        (status < 400 \/ 600 <= status) ->
        fst (download_contents_file requests_get arch mirror_base w)
        = Return content)
  /\ (forall status reason content,
        requests_get (contents_url arch mirror_base)
        = Response status reason content ->
        400 <= status < 600 ->
        exists m,
          fst (download_contents_file requests_get arch mirror_base w)
          = Raise (DownloadError (py "HTTP error: " ++ m)))
  /\ (forall m,
        requests_get (contents_url arch mirror_base) = RequestException m ->
        fst (download_contents_file requests_get arch mirror_base w)
        = Raise (DownloadError (py "Network error: " ++ m)))
  /\ (forall class_name m,
        requests_get (contents_url arch mirror_base)
        = OtherFailure class_name m ->
        fst (download_contents_file requests_get arch mirror_base w)
        = Raise (OtherError class_name m)).
Proof.
  rewrite download_result. split; [reflexivity|]. cbn [fst].
  split; [|split; [|split]].
  - intros status reason content -> H. unfold raise_for_status.
    destruct (400 <=? status) eqn:E1; destruct (status <? 500) eqn:E2;
      destruct (500 <=? status) eqn:E3; destruct (status <? 600) eqn:E4;
      cbn [andb]; try reflexivity; exfalso;
      try apply Z.leb_le in E1; try apply Z.leb_gt in E1;
      try apply Z.ltb_lt in E2; try apply Z.ltb_ge in E2;
      try apply Z.leb_le in E3; try apply Z.leb_gt in E3;
      try apply Z.ltb_lt in E4; try apply Z.ltb_ge in E4; lia.
  - intros status reason content -> H. unfold raise_for_status.
    destruct (400 <=? status) eqn:E1; destruct (status <? 500) eqn:E2;
      destruct (500 <=? status) eqn:E3; destruct (status <? 600) eqn:E4;
      cbn [andb]; try (eexists; reflexivity); exfalso;
      try apply Z.leb_le in E1; try apply Z.leb_gt in E1;
      try apply Z.ltb_lt in E2; try apply Z.ltb_ge in E2;
      try apply Z.leb_le in E3; try apply Z.leb_gt in E3;
      try apply Z.ltb_lt in E4; try apply Z.ltb_ge in E4; lia.
  - intros m ->. reflexivity.
  - intros class_name m ->. reflexivity.
Qed.

Lemma main_download_raises (requests_get : str -> http_result)
    (gzip_open_rt : list Byte.byte -> text_lines)
    (environ : environment) (argv : command_line) (m : str) (w : world) :
  fst (download_contents_file requests_get (given_arch argv) DEBIAN_MIRROR w)
  = Raise (DownloadError m) ->
  main requests_get gzip_open_rt environ argv w
  = (Raise (SystemExit 1),
     mkWorld (stdout w)
       ((log w ++ [(INFO, py "Downloading: "
                          ++ contents_url (given_arch argv) DEBIAN_MIRROR)])
        ++ [(ERROR, m)])).
Proof.
  intros H. unfold main. unfold bind at 1. unfold try_except at 1.
  cbn [arch top parse_arguments].
  rewrite download_result in *. cbn [fst] in H. rewrite H. reflexivity.
Qed.

Lemma main_reads_to_end (requests_get : str -> http_result)
    (gzip_open_rt : list Byte.byte -> text_lines)
    (environ : environment) (argv : command_line)
    (status : Z) (reason : str) (gz : list Byte.byte) (lines : list str)
    (w : world) :
  requests_get (contents_url (given_arch argv) DEBIAN_MIRROR)
  = Response status reason gz ->
  raise_for_status status reason
    (contents_url (given_arch argv) DEBIAN_MIRROR) = None ->
  gzip_open_rt gz = lines_then_eof lines ->
  main requests_get gzip_open_rt environ argv w
  = print_top_packages
      (fold_left iadd1 (flat_map line_packages lines) Dict.empty)
      (match given_top argv with Some n => n | None => 10 end)
      (mkWorld (stdout w)
         (log w ++ [(INFO, py "Downloading: "
                           ++ contents_url (given_arch argv) DEBIAN_MIRROR)])).
Proof.
  intros Eget Estatus Egz. unfold main. unfold bind at 1.
  unfold try_except at 1. cbn [arch top parse_arguments].
  rewrite (download_ok _ _ _ _ _ _ _ Eget Estatus).
  unfold bind at 1.
  rewrite (parse_contents_file_lines _ _ _ _ Egz). reflexivity.
Qed.

(** X11. When the download raises its [DownloadError], the script logs
    the message as an error and exits with status 1: nothing is printed
    and the decompressor is never asked, whatever it would have done. *)
Theorem download_failure_exits (requests_get : str -> http_result)
    (gzip_open_rt gzip_open_rt' : list Byte.byte -> text_lines)
    (environ : environment) (argv : command_line) (m : str) :
  fst (download_contents_file requests_get (given_arch argv) DEBIAN_MIRROR
         world0)
  = Raise (DownloadError m) ->
  run requests_get gzip_open_rt environ argv
  = (1, mkWorld []
          [(INFO, py "Downloading: "
                  ++ contents_url (given_arch argv) DEBIAN_MIRROR);
           (ERROR, m)])
  /\ run requests_get gzip_open_rt' environ argv
     = run requests_get gzip_open_rt environ argv.
Proof.
  intros H. unfold run.
  rewrite !(main_download_raises _ _ _ _ _ _ H). split; reflexivity.
Qed.

(** A server that answers 404. *)
Lemma download_failure_exits_witness :
  run (server_status 404 (py "Not Found")) (reader_yielding [])
    no_environ (mkCommandLine (py "amd64") None None)
  = (1, mkWorld []
          [(INFO, py "Downloading: http://ftp.uk.debian.org/debian/dists/stable/main/Contents-amd64.gz");
           (ERROR, py "HTTP error: 404 Client Error: Not Found for url: http://ftp.uk.debian.org/debian/dists/stable/main/Contents-amd64.gz")]).
Proof.
  apply (download_failure_exits (server_status 404 (py "Not Found"))
           (reader_yielding []) (reader_yielding [])
           no_environ (mkCommandLine (py "amd64") None None)).
  reflexivity.
Defined.

(** X12. When the download succeeds and the stream reads to its end, the
    script exits with status 0, logs two INFO records and no error, and
    prints exactly the report of the mapping of the stream, for the
    [--top] given or for 10. *)
Theorem successful_run_reports (requests_get : str -> http_result)
    (gzip_open_rt : list Byte.byte -> text_lines)
    (environ : environment) (argv : command_line)
    (status : Z) (reason : str) (gz : list Byte.byte) (lines : list str) :
  requests_get (contents_url (given_arch argv) DEBIAN_MIRROR)
  = Response status reason gz ->
  raise_for_status status reason
    (contents_url (given_arch argv) DEBIAN_MIRROR) = None ->
  gzip_open_rt gz = lines_then_eof lines ->
  exists d top_n,
    read_loop (lines_then_eof lines) Dict.empty = Return d
    /\ top_n = match given_top argv with Some n => n | None => 10 end
    /\ run requests_get gzip_open_rt environ argv
       = (0, mkWorld (top_lines d top_n)
               [(INFO, py "Downloading: "
                       ++ contents_url (given_arch argv) DEBIAN_MIRROR);
                (INFO, 10%N :: py "Top " ++ of_int top_n
                       ++ py " packages by number of files:" ++ [10%N])]).
Proof.
  intros Eget Estatus Egz. eexists _, _.
  split; [apply read_loop_lines|]. split; [reflexivity|].
  unfold run.
  rewrite (main_reads_to_end _ _ _ _ _ _ _ _ _ Eget Estatus Egz).
  rewrite print_top_packages_world. reflexivity.
Qed.

(** Three lines, one of them a lone token, with [-n 1]. *)
Lemma successful_run_reports_witness :
  exists d top_n,
    read_loop
      (lines_then_eof [py "bin/ls coreutils"; py "orphan";
                       py "bin/cp coreutils,busybox"])
      Dict.empty = Return d
    /\ top_n = 1
    /\ run (server_sends [Byte.x1f; Byte.x8b])
         (reader_yielding [py "bin/ls coreutils"; py "orphan";
                           py "bin/cp coreutils,busybox"])
         no_environ (mkCommandLine (py "amd64") (Some 1) None)
       = (0, mkWorld (top_lines d top_n)
               [(INFO, py "Downloading: "
                       ++ contents_url (py "amd64") DEBIAN_MIRROR);
                (INFO, 10%N :: py "Top " ++ of_int top_n
                       ++ py " packages by number of files:" ++ [10%N])]).
Proof.
  apply (successful_run_reports (server_sends [Byte.x1f; Byte.x8b])
           (reader_yielding [py "bin/ls coreutils"; py "orphan";
                             py "bin/cp coreutils,busybox"])
           no_environ (mkCommandLine (py "amd64") (Some 1) None)
           200 (py "OK") [Byte.x1f; Byte.x8b]
           [py "bin/ls coreutils"; py "orphan";
            py "bin/cp coreutils,busybox"]);
    reflexivity.
Defined.

Example successful_run_example :
  run (server_sends [Byte.x1f; Byte.x8b])
    (reader_yielding [py "bin/ls coreutils"; py "orphan";
                      py "bin/cp coreutils,busybox"])
    no_environ (mkCommandLine (py "amd64") (Some 1) None)
  = (0, mkWorld [py "coreutils                      2"]
          [(INFO, py "Downloading: http://ftp.uk.debian.org/debian/dists/stable/main/Contents-amd64.gz");
           (INFO, 10%N :: py "Top 1 packages by number of files:" ++ [10%N])]).
Proof. reflexivity. Qed.

(** ** Empty names *)

Lemma split_not_nil (sep : N) (s : str) : split sep s <> [].
Proof.
  destruct s as [|c s]; simpl; [discriminate|].
  destruct (c =? sep)%N; [discriminate|].
  destruct (split sep s); discriminate.
Qed.

Lemma split_snoc_sep (sep : N) (s : str) :
  split sep (s ++ [sep]) = split sep s ++ [[]].
Proof.
  induction s as [|c s IH]; simpl.
  - rewrite N.eqb_refl. reflexivity.
  - destruct (c =? sep)%N; [rewrite IH; reflexivity|].
    rewrite IH. pose proof (split_not_nil sep s) as H.
    destruct (split sep s); [contradiction | reflexivity].
Qed.

(** X13. Names are not filtered: an owners field that ends in a comma
    lists the empty name, so the line raises the count of the empty
    string. *)
Theorem trailing_comma_counts_empty_name (d : dict) (line path owners : str) :
  rsplit_ws_1 (strip line) = [path; owners ++ [comma]] ->
  count d [] < count (process_line d line) []
  /\ get (process_line d line) [] <> None.
Proof.
  intros E.
  assert (Hin : In [] (split comma (owners ++ [comma]))).
  { rewrite split_snoc_sep. apply in_or_app. right. left. reflexivity. }
  rewrite process_line_packages, (line_packages_two _ _ _ E).
  split.
  - rewrite count_fold_iadd1.
    pose proof (proj1 (count_occ_In str_eq_dec _ _) Hin) as H.
    unfold occurrences. lia.
  - rewrite (get_fold_iadd1_listed _ _ _ Hin). discriminate.
Qed.

Lemma trailing_comma_counts_empty_name_witness :
  count [] [] < count (process_line [] (py "bin/ls coreutils,")) []
  /\ get (process_line [] (py "bin/ls coreutils,")) [] <> None.
Proof.
  apply (trailing_comma_counts_empty_name [] (py "bin/ls coreutils,")
           (py "bin/ls") (py "coreutils")).
  reflexivity.
Defined.
